(** * Streaming analytics consumer: a shallow embedding in Rocq

    Models [streaming-kafka/analytics_consumer/main.py]: the duplicate
    filter, the two sliding windows, the metrics aggregator and the Kafka
    worker's message handling and commit loop.

    Modelling choices:
    - [time.time()] readings are rationals ([Q]); every operation that reads
      the clock takes the reading(s) as explicit arguments, one per call.
    - Python floats are modelled as exact rationals (rounding is not
      modelled); Python ints as [Z].
    - [dict]s keyed by strings are stdpp [gmap]s; [deque]s are lists whose
      head is the left end ([popleft]).
    - Raised exceptions are the [Raise] case of the result monad [res].
    - The library functions the module calls ([bytes.decode], [json.loads],
    [json.dumps], [sha1], [str], [str.lower]) are the methods of the class
    [PyLib]; the repository's own code is written out in full. *)

From Stdlib Require Import QArith Qminmax Lqa Sorting.Sorted.
From stdpp Require Import base gmap list strings.

Open Scope Q_scope.
Set Warnings "-register-all".

(** ** Python runtime pieces *)

Inductive py_exn :=
| ZeroDivisionError
| AttributeError
| KafkaException (code : Z).

Inductive res (A : Type) : Type :=
| Ok (a : A)
| Raise (e : py_exn).
Arguments Ok {A} a.
Arguments Raise {A} e.

#[global] Instance res_ret : MRet res := fun _ a => Ok a.
#[global] Instance res_bind : MBind res := fun A B (k : A -> res B) m =>
  match m with Ok a => k a | Raise e => Raise e end.

(** [a / b] on numbers: raises [ZeroDivisionError] on a zero divisor. *)
Definition py_truediv (a b : Q) : res Q :=
  if Qeq_bool b 0 then Raise ZeroDivisionError else Ok (a / b).

(** Python's [max(a, b)]: keeps [a] unless [b > a]. *)
Definition py_max (a b : Q) : Q :=
  if Qle_bool b a then a else b.

(** [a < b] on floats. *)
Definition Qltb (a b : Q) : bool := negb (Qle_bool b a).

(** Decoded JSON values ([json.loads] results). A number carries the text
    [str()] gives for it. Objects are Python dicts: association lists
    with distinct keys. *)
Inductive json :=
| JNull
| JBool (b : bool)
| JNum (repr : string)
| JStr (s : string)
| JArr (items : list json)
| JObj (fields : list (string * json)).

Fixpoint py_dict_get (k : string) (fields : list (string * json)) : option json :=
  match fields with
  | [] => None
  | (k', v) :: rest => if String.eqb k k' then Some v else py_dict_get k rest
  end.

(** Truthiness of a decoded value ([x or 'na']). *)
Definition py_truthy (v : json) : bool :=
  match v with
  | JNull => false
  | JBool b => b
  | JNum r => negb (String.eqb r "0" || String.eqb r "0.0" || String.eqb r "-0.0")
  | JStr s => negb (String.eqb s "")
  | JArr l => negb (bool_decide (l = []))
  | JObj f => negb (bool_decide (f = []))
  end.

(** The library functions called by the module. *)
Class PyLib := {
  (** [raw.decode("utf-8")] then [json.loads]; [None] when either raises
      [UnicodeDecodeError] or [json.JSONDecodeError]. *)
  json_loads_utf8 : list Byte.byte -> option json;
  (** [key.decode("utf-8", errors="ignore")] *)
  utf8_decode_ignore : list Byte.byte -> string;
  (** [json.dumps(payload, sort_keys=True).encode("utf-8")] then [sha1(...).hexdigest()] *)
  sha1_of_dumps : json -> string;
  (** [str(x)] of a list or dict value *)
  str_container : json -> string;
  (** [str.lower] *)
  py_lower : string -> string
}.

Section Runtime.
Context `{PyLib}.

(** [str(x)] of a decoded value. *)
Definition py_str (v : json) : string :=
  match v with
  | JNull => "None"
  | JBool true => "True"
  | JBool false => "False"
  | JNum r => r
  | JStr s => s
  | JArr _ | JObj _ => str_container v
  end.

End Runtime.

(** ** [DuplicateFilter] *)

Record DuplicateFilter := {
  df_ttl : Q;
  df_seen : gmap string Q;
  df_order : list (Q * string)
}.

Definition new_DuplicateFilter (ttl_seconds : Q) : DuplicateFilter :=
  {| df_ttl := py_max ttl_seconds 1; df_seen := ∅; df_order := [] |}.

(** The [while] loop of [_evict]: pops expired entries from the left and
    removes their identity from [_seen]. *)
Fixpoint df_evict_loop (cutoff : Q) (seen : gmap string Q) (order : list (Q * string))
    : gmap string Q * list (Q * string) :=
  match order with
  | (ts, event_id) :: rest =>
      if Qltb ts cutoff then df_evict_loop cutoff (delete event_id seen) rest
      else (seen, order)
  | [] => (seen, [])
  end.

Definition df_evict (now : Q) (df : DuplicateFilter) : DuplicateFilter :=
  let '(seen, order) := df_evict_loop (now - df_ttl df) (df_seen df) (df_order df) in
  {| df_ttl := df_ttl df; df_seen := seen; df_order := order |}.

(** [register(event_id)] at clock reading [now]. *)
Definition register (now : Q) (event_id : string) (df : DuplicateFilter)
    : bool * DuplicateFilter :=
  let df1 := df_evict now df in
  match df_seen df1 !! event_id with
  | Some _ => (true, df1)
  | None =>
      (false, {| df_ttl := df_ttl df1;
                 df_seen := <[event_id := now]> (df_seen df1);
                 df_order := df_order df1 ++ [(now, event_id)] |})
  end.

(** ** [UniqueOrderWindow] *)

Record UniqueOrderWindow := {
  uw_window : Q;
  uw_entries : gmap string Q;
  uw_order : list (Q * string)
}.

Definition new_UniqueOrderWindow (window_seconds : Q) : UniqueOrderWindow :=
  {| uw_window := py_max window_seconds 1; uw_entries := ∅; uw_order := [] |}.

(** The [while] loop of [_evict]: an expired entry removes its key only
    when the key's stored timestamp equals the entry's. *)
Fixpoint uw_evict_loop (cutoff : Q) (entries : gmap string Q) (order : list (Q * string))
    : gmap string Q * list (Q * string) :=
  match order with
  | (ts, order_id) :: rest =>
      if Qltb ts cutoff then
        let entries' :=
          match entries !! order_id with
          | Some ts' => if Qeq_bool ts' ts then delete order_id entries else entries
          | None => entries
          end in
        uw_evict_loop cutoff entries' rest
      else (entries, order)
  | [] => (entries, [])
  end.

Definition uw_evict (now : Q) (w : UniqueOrderWindow) : UniqueOrderWindow :=
  let '(entries, order) := uw_evict_loop (now - uw_window w) (uw_entries w) (uw_order w) in
  {| uw_window := uw_window w; uw_entries := entries; uw_order := order |}.

(** [track(order_id)]: returns at once when [not order_id]. *)
Definition uw_track (order_id : option string) (now : Q) (w : UniqueOrderWindow)
    : UniqueOrderWindow :=
  match order_id with
  | Some oid =>
      if String.eqb oid "" then w
      else uw_evict now {| uw_window := uw_window w;
                           uw_entries := <[oid := now]> (uw_entries w);
                           uw_order := uw_order w ++ [(now, oid)] |}
  | None => w
  end.

(** [len(self._entries)] *)
Definition uw_len (w : UniqueOrderWindow) : Z := Z.of_nat (size (uw_entries w)).

Definition per_minute (now : Q) (w : UniqueOrderWindow) : res (Q * UniqueOrderWindow) :=
  let w' := uw_evict now w in
  let count := uw_len w' in
  r ← py_truediv (inject_Z count * 60) (uw_window w');
  mret (r, w').

Definition active_orders (now : Q) (w : UniqueOrderWindow) : Z * UniqueOrderWindow :=
  let w' := uw_evict now w in (uw_len w', w').

(** ** [FailureWindow] *)

Record FailureWindow := {
  fw_window : Q;
  fw_events : list (Q * bool);
  fw_failures : Z
}.

Definition new_FailureWindow (window_seconds : Q) : FailureWindow :=
  {| fw_window := py_max window_seconds 1; fw_events := []; fw_failures := 0 |}.

Fixpoint fw_evict_loop (cutoff : Q) (failures : Z) (events : list (Q * bool))
    : Z * list (Q * bool) :=
  match events with
  | (ts, is_failure) :: rest =>
      if Qltb ts cutoff then
        fw_evict_loop cutoff (if is_failure then Z.max (failures - 1) 0 else failures) rest
      else (failures, events)
  | [] => (failures, [])
  end.

Definition fw_evict (now : Q) (fw : FailureWindow) : FailureWindow :=
  let '(failures, events) := fw_evict_loop (now - fw_window fw) (fw_failures fw) (fw_events fw) in
  {| fw_window := fw_window fw; fw_events := events; fw_failures := failures |}.

Definition fw_track (is_failure : bool) (now : Q) (fw : FailureWindow) : FailureWindow :=
  fw_evict now {| fw_window := fw_window fw;
                  fw_events := fw_events fw ++ [(now, is_failure)];
                  fw_failures := if is_failure then (fw_failures fw + 1)%Z else fw_failures fw |}.

(** [totals()]: [(len(self._events), self._failures)] after eviction. *)
Definition totals (now : Q) (fw : FailureWindow) : (Z * Z) * FailureWindow :=
  let fw' := fw_evict now fw in
  ((Z.of_nat (length (fw_events fw')), fw_failures fw'), fw').

(** [failure_rate_pct()]: [(failures / total * 100) if total else 0.0]. *)
Definition failure_rate_pct (now : Q) (fw : FailureWindow) : res (Q * FailureWindow) :=
  let '((total, failures), fw') := totals now fw in
  if Z.eqb total 0 then mret (0, fw')
  else r ← py_truediv (inject_Z failures) (inject_Z total); mret (r * 100, fw').

(** ** [MetricsAggregator] *)

(** [int(x)] of a float: truncation toward zero. *)
Definition py_int (q : Q) : Z := Z.quot (Qnum q) (Zpos (Qden q)).

(** The [stats] dict has the fixed keys ["orders"], ["inventory"] and
    ["duplicates"]: one field each. *)
Record MetricsAggregator := {
  order_window : UniqueOrderWindow;
  failure_window : FailureWindow;
  window_seconds : Z;
  stat_orders : Z;
  stat_inventory : Z;
  stat_duplicates : Z
}.

Definition new_MetricsAggregator (w : Q) : MetricsAggregator :=
  {| order_window := new_UniqueOrderWindow w;
     failure_window := new_FailureWindow w;
     window_seconds := py_int w;
     stat_orders := 0; stat_inventory := 0; stat_duplicates := 0 |}.

Definition record_order (order_id : option string) (now : Q) (m : MetricsAggregator)
    : MetricsAggregator :=
  {| order_window := uw_track order_id now (order_window m);
     failure_window := failure_window m;
     window_seconds := window_seconds m;
     stat_orders := (stat_orders m + 1)%Z;
     stat_inventory := stat_inventory m;
     stat_duplicates := stat_duplicates m |}.

Definition record_inventory (is_failure : bool) (now : Q) (m : MetricsAggregator)
    : MetricsAggregator :=
  {| order_window := order_window m;
     failure_window := fw_track is_failure now (failure_window m);
     window_seconds := window_seconds m;
     stat_orders := stat_orders m;
     stat_inventory := (stat_inventory m + 1)%Z;
     stat_duplicates := stat_duplicates m |}.

Definition record_duplicate (m : MetricsAggregator) : MetricsAggregator :=
  {| order_window := order_window m;
     failure_window := failure_window m;
     window_seconds := window_seconds m;
     stat_orders := stat_orders m;
     stat_inventory := stat_inventory m;
     stat_duplicates := (stat_duplicates m + 1)%Z |}.

Record Snapshot := {
  orders_per_min : Q;
  inventory_events : Z;
  failures : Z;
  snap_failure_rate_pct : Q;
  snap_window_seconds : Z;
  generated_at : Q
}.

(** [snapshot()]: the four [time.time()] readings taken by
    [totals()], [per_minute()], [failure_rate_pct()] (through its own
    [totals()]) and the ["generated_at"] field, in this order. *)
Definition snapshot (t_totals t_per_min t_rate t_gen : Q) (m : MetricsAggregator)
    : res (Snapshot * MetricsAggregator) :=
  let '((inv_events, fails), fw1) := totals t_totals (failure_window m) in
  '(opm, ow1) ← per_minute t_per_min (order_window m);
  '(rate, fw2) ← failure_rate_pct t_rate fw1;
  mret ({| orders_per_min := opm; inventory_events := inv_events; failures := fails;
           snap_failure_rate_pct := rate; snap_window_seconds := window_seconds m;
           generated_at := t_gen |},
        {| order_window := ow1; failure_window := fw2; window_seconds := window_seconds m;
           stat_orders := stat_orders m; stat_inventory := stat_inventory m;
           stat_duplicates := stat_duplicates m |}).

(** ** [KafkaAnalyticsWorker] *)

Record Env := {
  ORDER_TOPIC : string;
  INVENTORY_TOPIC : string
}.

(** A polled Kafka message without error. *)
Record Message := {
  msg_topic : string;
  msg_partition : Z;
  msg_offset : Z;
  msg_key : option (list Byte.byte);
  msg_value : option (list Byte.byte)
}.

Inductive KafkaErrorCode :=
| PARTITION_EOF
| UNKNOWN_TOPIC_OR_PART
| OtherKafkaError (code : Z).

(** Result of [self._consumer.poll(0.5)]. *)
Inductive PollResult :=
| PollNone
| PollError (code : KafkaErrorCode)
| PollMessage (msg : Message).

Record WorkerState := {
  metrics : MetricsAggregator;
  deduper : DuplicateFilter;
  (** the messages passed to [commit(message=msg, asynchronous=False)], oldest first *)
  commits : list Message
}.

Section Worker.
Context `{PyLib}.

(** [_decode_payload]: [None] is a [ValueError]. *)
Definition _decode_payload (raw_value : option (list Byte.byte)) : option json :=
  match raw_value with
  | None => Some (JObj [])
  | Some raw => json_loads_utf8 raw
  end.

(** [_resolve_order_id] on a dict payload. *)
Definition _resolve_order_id (message_key : option (list Byte.byte))
    (payload : list (string * json)) : option string :=
  match py_dict_get "order_id" payload with
  | Some v => Some (py_str v)
  | None =>
      match message_key with
      | Some k => let s := utf8_decode_ignore k in
                  if String.eqb s "" then None else Some s
      | None => None
      end
  end.

(** [_event_id]: [payload.get] raises [AttributeError] on a non-dict payload. *)
Definition _event_id (topic : string) (message_key : option (list Byte.byte)) (payload : json)
    : res string :=
  match payload with
  | JObj fields =>
      let identifier :=
        match py_dict_get "order_id" fields with Some v => v | None => JNull end in
      let identifier :=
        match identifier, message_key with
        | JNull, Some k => JStr (utf8_decode_ignore k)
        | _, _ => identifier
        end in
      let digest := sha1_of_dumps payload in
      mret (topic +:+ ":" +:+ (if py_truthy identifier then py_str identifier else "na")
                  +:+ ":" +:+ digest)
  | _ => Raise AttributeError
  end.

(** [_handle_message(topic, key, value)]: [t_reg] is the clock reading of
    [register], [t_rec] that of the window's [track]. *)
Definition _handle_message (env : Env) (t_reg t_rec : Q) (topic : string)
    (key value : option (list Byte.byte)) (ws : WorkerState) : res WorkerState :=
  match _decode_payload value with
  | None => mret ws
  | Some payload =>
      event_id ← _event_id topic key payload;
      let '(dup, df') := register t_reg event_id (deduper ws) in
      let ws1 := {| metrics := metrics ws; deduper := df'; commits := commits ws |} in
      if dup then
        mret {| metrics := record_duplicate (metrics ws1); deduper := df'; commits := commits ws |}
      else if String.eqb topic (ORDER_TOPIC env) then
        match payload with
        | JObj fields =>
            mret {| metrics := record_order (_resolve_order_id key fields) t_rec (metrics ws1);
                    deduper := df'; commits := commits ws |}
        | _ => Raise AttributeError
        end
      else if String.eqb topic (INVENTORY_TOPIC env) then
        match payload with
        | JObj fields =>
            let status := py_lower (py_str (default (JStr "") (py_dict_get "status" fields))) in
            mret {| metrics := record_inventory (String.eqb status "failure") t_rec (metrics ws1);
                    deduper := df'; commits := commits ws |}
        | _ => Raise AttributeError
        end
      else mret ws1
  end.

(** One iteration of the [while] loop of [run()]. *)
Definition run_step (env : Env) (t_reg t_rec : Q) (polled : PollResult) (ws : WorkerState)
    : res WorkerState :=
  match polled with
  | PollNone => mret ws
  | PollError PARTITION_EOF => mret ws
  | PollError UNKNOWN_TOPIC_OR_PART => mret ws
  | PollError (OtherKafkaError c) => Raise (KafkaException c)
  | PollMessage msg =>
      ws' ← _handle_message env t_reg t_rec (msg_topic msg) (msg_key msg) (msg_value msg) ws;
      mret {| metrics := metrics ws'; deduper := deduper ws'; commits := commits ws' ++ [msg] |}
  end.

End Worker.

(** ** Call sequences on the windows *)

(** The calls a window receives, each with the clock reading it takes. *)
Inductive uw_call :=
| UwTrack (order_id : option string)
| UwPerMinute
| UwActiveOrders.

(** The state a call leaves behind ([per_minute] evicts before it divides). *)
Definition uw_apply (w : UniqueOrderWindow) (call : Q * uw_call) : UniqueOrderWindow :=
  let '(now, c) := call in
  match c with
  | UwTrack order_id => uw_track order_id now w
  | UwPerMinute => uw_evict now w
  | UwActiveOrders => snd (active_orders now w)
  end.

Definition uw_run (calls : list (Q * uw_call)) (w : UniqueOrderWindow) : UniqueOrderWindow :=
  fold_left uw_apply calls w.

(** The clock reading of the most recent [track(key)] in [calls] that did
    not return early. *)
Fixpoint last_track (calls : list (Q * uw_call)) (key : string) : option Q :=
  match calls with
  | [] => None
  | (t, UwTrack (Some k)) :: rest =>
      match last_track rest key with
      | Some t' => Some t'
      | None => if String.eqb k key && negb (String.eqb key "") then Some t else None
      end
  | _ :: rest => last_track rest key
  end.

Inductive fw_call :=
| FwTrack (is_failure : bool)
| FwTotals
| FwFailureRate.

Definition fw_apply (fw : FailureWindow) (call : Q * fw_call) : FailureWindow :=
  let '(now, c) := call in
  match c with
  | FwTrack is_failure => fw_track is_failure now fw
  | FwTotals => snd (totals now fw)
  | FwFailureRate =>
      match failure_rate_pct now fw with Ok (_, fw') => fw' | Raise _ => fw end
  end.

Definition fw_run (calls : list (Q * fw_call)) (fw : FailureWindow) : FailureWindow :=
  fold_left fw_apply calls fw.

(** Number of entries flagged [True]. *)
Fixpoint count_failures (events : list (Q * bool)) : Z :=
  match events with
  | [] => 0
  | (_, true) :: rest => count_failures rest + 1
  | (_, false) :: rest => count_failures rest
  end%Z.

(** Clock readings at or after [T0] that never decrease and end at or
    before [now]. *)
Fixpoint clock_from {A} (T0 : Q) (calls : list (Q * A)) (now : Q) : Prop :=
  match calls with
  | [] => T0 <= now
  | (t, _) :: rest => T0 <= t /\ clock_from t rest now
  end.

(** ** A sequence of [register] calls *)

Fixpoint df_run (calls : list (Q * string)) (df : DuplicateFilter)
    : list bool * DuplicateFilter :=
  match calls with
  | [] => ([], df)
  | (now, event_id) :: rest =>
      let '(b, df') := register now event_id df in
      let '(bs, df'') := df_run rest df' in (b :: bs, df'')
  end.

(** The contract of [register] in the words of the design: a call answers
    [true], and changes nothing, exactly when the identity was recorded
    within the trailing [ttl] seconds; otherwise it records the identity at
    the current time and answers [false]. The state is the list of
    recordings [(time, identity)]. *)
Definition spec_register (ttl now : Q) (event_id : string) (recs : list (Q * string))
    : bool * list (Q * string) :=
  if existsb (fun '(r, i) => String.eqb i event_id && Qle_bool (now - ttl) r) recs
  then (true, recs)
  else (false, recs ++ [(now, event_id)]).

Fixpoint spec_run (ttl : Q) (calls : list (Q * string)) (recs : list (Q * string))
    : list bool * list (Q * string) :=
  match calls with
  | [] => ([], recs)
  | (now, event_id) :: rest =>
      let '(b, recs') := spec_register ttl now event_id recs in
      let '(bs, recs'') := spec_run ttl rest recs' in (b :: bs, recs'')
  end.

(** ** Deliveries seen by the worker *)

Section Deliveries.
Context `{PyLib}.

(** The identity [_handle_message] derives for a delivery: [None] when the
    payload does not decode. *)
Definition delivery_event_id (msg : Message) : option (res string) :=
  match _decode_payload (msg_value msg) with
  | Some payload => Some (_event_id (msg_topic msg) (msg_key msg) payload)
  | None => None
  end.

(** The same delivery handled again and again, once per pair of clock
    readings [(t_reg, t_rec)]. *)
Fixpoint handle_repeatedly (env : Env) (times : list (Q * Q)) (topic : string)
    (key value : option (list Byte.byte)) (ws : WorkerState) : res WorkerState :=
  match times with
  | [] => mret ws
  | (t_reg, t_rec) :: rest =>
      ws' ← _handle_message env t_reg t_rec topic key value ws;
      handle_repeatedly env rest topic key value ws'
  end.

End Deliveries.

(** [_seen] is the map of the entries of [_order], one entry per identity. *)
Definition df_wf (df : DuplicateFilter) : Prop :=
  (forall i t, df_seen df !! i = Some t <-> In (t, i) (df_order df)) /\
  NoDup (map snd (df_order df)).

(** A concrete runtime for evaluating the model on sample deliveries: its
    JSON decoder accepts only the payload [{}], key decoding keeps the
    ASCII bytes, and the digest is a fixed string. *)
Definition sample_runtime : PyLib := {|
  json_loads_utf8 := fun raw =>
    match raw with [Byte.x7b; Byte.x7d] => Some (JObj []) | _ => None end;
  utf8_decode_ignore := fun raw =>
    String.string_of_list_byte (List.filter (fun b => Nat.ltb (Byte.to_nat b) 128) raw);
  sha1_of_dumps := fun _ => "digest";
  str_container := fun _ => "";
  py_lower := fun s => s
|}.

(** The snapshot dict that [snapshot()] returns, without the state it
    leaves. *)
Definition snapshot_value (t_totals t_per_min t_rate t_gen : Q) (m : MetricsAggregator)
    : res Snapshot :=
  '(s, _) ← snapshot t_totals t_per_min t_rate t_gen m; mret s.

(** A worker that has just recorded the order delivery keyed ["1"] with an
    absent payload. *)
Definition order_1_id : string := "orders:1:digest".

Definition worker_after_order_1 : WorkerState :=
  {| metrics := new_MetricsAggregator 60;
     deduper := snd (register 0 order_1_id (new_DuplicateFilter 60));
     commits := [] |}.

Definition order_1_message (offset : Z) : Message :=
  {| msg_topic := "orders"; msg_partition := 0; msg_offset := offset;
     msg_key := Some [Byte.x31]; msg_value := None |}.

(** ** The [while] loop of [run()] *)

Section RunLoop.
Context `{PyLib}.

(** The loop of [run()] over the results of the successive polls, each with
    the clock readings of [register] and of the window's [track], until the
    stop event is seen. An exception leaves the loop (the [finally] block
    closes the consumer): the loop returns the worker's state at that point,
    with the commits already made, and the exception. The [time.sleep]
    calls only move the clock, which the readings already give. *)
Fixpoint run_loop (env : Env) (polls : list (Q * Q * PollResult)) (ws : WorkerState)
    : WorkerState * option py_exn :=
  match polls with
  | [] => (ws, None)
  | (t_reg, t_rec, polled) :: rest =>
      match run_step env t_reg t_rec polled ws with
      | Ok ws' => run_loop env rest ws'
      | Raise e => (ws, Some e)
      end
  end.

End RunLoop.

(** The messages among the poll results, in poll order. *)
Fixpoint polled_messages (polls : list (Q * Q * PollResult)) : list Message :=
  match polls with
  | [] => []
  | (_, _, PollMessage msg) :: rest => msg :: polled_messages rest
  | _ :: rest => polled_messages rest
  end.

(** ** Call sequences on the aggregator *)

(** The calls a [MetricsAggregator] receives; the clock reading paired with
    a call is that of its window's [track], or for [snapshot()] that of its
    first [totals()]. *)
Inductive agg_call :=
| AggRecordOrder (order_id : option string)
| AggRecordInventory (is_failure : bool)
| AggRecordDuplicate
| AggSnapshot (t_per_min t_rate t_gen : Q).

Definition agg_apply (m : MetricsAggregator) (call : Q * agg_call) : MetricsAggregator :=
  let '(now, c) := call in
  match c with
  | AggRecordOrder order_id => record_order order_id now m
  | AggRecordInventory is_failure => record_inventory is_failure now m
  | AggRecordDuplicate => record_duplicate m
  | AggSnapshot t_per_min t_rate t_gen =>
      match snapshot now t_per_min t_rate t_gen m with
      | Ok (_, m') => m'
      | Raise _ => m
      end
  end.

Definition agg_run (calls : list (Q * agg_call)) (m : MetricsAggregator) : MetricsAggregator :=
  fold_left agg_apply calls m.

(** The [(time, is_failure)] pairs appended by the [track] calls of a call
    sequence on a [FailureWindow]. *)
Fixpoint fw_tracked (calls : list (Q * fw_call)) : list (Q * bool) :=
  match calls with
  | [] => []
  | (t, FwTrack is_failure) :: rest => (t, is_failure) :: fw_tracked rest
  | _ :: rest => fw_tracked rest
  end.

(** Whether a string contains [':'] (Kafka topic names cannot). *)
Fixpoint has_colon (s : string) : bool :=
  match s with
  | EmptyString => false
  | String c rest => String.eqb (String c EmptyString) ":" || has_colon rest
  end.

(** ** Start-up: [_load_env], [_build_consumer] and [main] *)

(** The library functions used at start-up. *)
Class PyStartup := {
  (** [float(s)]; [None] when it raises [ValueError] *)
  py_float : string -> option Q;
  (** [int(s)]; [None] when it raises [ValueError] *)
  py_int_of_str : string -> option Z;
  (** [s.strip()] *)
  py_strip : string -> string
}.

Inductive startup_exn :=
| RuntimeError (msg : string)
| ValueError.

(** [os.environ]: the process environment. *)
Definition OsEnv := gmap string string.

(** [os.getenv(key, default)] *)
Definition getenv_or (os : OsEnv) (key dflt : string) : string :=
  match os !! key with Some v => v | None => dflt end.

(** [sep.join(items)] *)
Fixpoint py_join (sep : string) (items : list string) : string :=
  match items with
  | [] => ""
  | [x] => x
  | x :: rest => x +:+ sep +:+ py_join sep rest
  end.

Definition required_keys : list string :=
  ["BOOTSTRAP_SERVERS"; "ORDER_TOPIC"; "INVENTORY_TOPIC"; "GROUP_ID"].

(** [missing = [key for key, val in env.items() if not val]] *)
Definition env_missing (os : OsEnv) : list string :=
  List.filter (fun key => match os !! key with Some v => String.eqb v "" | None => true end)
    required_keys.

Module Config.

(** The dict [_load_env()] returns. *)
Record Settings := {
  BOOTSTRAP_SERVERS : string;
  ORDER_TOPIC : string;
  INVENTORY_TOPIC : string;
  GROUP_ID : string;
  AUTO_OFFSET_RESET : string;
  WINDOW_SEC : Q;
  THROTTLE_MS : Z;
  HTTP_HOST : string;
  HTTP_PORT : Z;
  REPORT_INTERVAL_SEC : Q;
  GROUP_INSTANCE_ID : option string
}.

End Config.

(** A value of the consumer's configuration dict. *)
Inductive conf_value :=
| CStr (s : string)
| CBool (b : bool).

(** The consumer [_build_consumer] creates: its configuration (a dict, as
    an association list in insertion order) and its subscription. *)
Record Consumer := {
  consumer_conf : list (string * conf_value);
  subscription : list string
}.

Fixpoint conf_get (k : string) (conf : list (string * conf_value)) : option conf_value :=
  match conf with
  | [] => None
  | (k', v) :: rest => if String.eqb k k' then Some v else conf_get k rest
  end.

(** [KafkaAnalyticsWorker.__init__] *)
Record KafkaAnalyticsWorker := {
  worker_env : Config.Settings;
  worker_metrics : MetricsAggregator;
  worker_deduper : DuplicateFilter;
  worker_throttle : Q;
  worker_group_instance_id : option string
}.

Definition new_KafkaAnalyticsWorker (env : Config.Settings) (m : MetricsAggregator)
    : KafkaAnalyticsWorker :=
  {| worker_env := env;
     worker_metrics := m;
     worker_deduper := new_DuplicateFilter (Config.WINDOW_SEC env);
     worker_throttle := inject_Z (Config.THROTTLE_MS env) / 1000;
     worker_group_instance_id := Config.GROUP_INSTANCE_ID env |}.

(** The two topics [_handle_message] reads from the worker's [env]. *)
Definition topics_env (env : Config.Settings) : Env :=
  {| ORDER_TOPIC := Config.ORDER_TOPIC env; INVENTORY_TOPIC := Config.INVENTORY_TOPIC env |}.

(** The state the worker's [run()] starts from. *)
Definition worker_state (w : KafkaAnalyticsWorker) : WorkerState :=
  {| metrics := worker_metrics w; deduper := worker_deduper w; commits := [] |}.

(** [_build_consumer()] *)
Definition _build_consumer (w : KafkaAnalyticsWorker) : Consumer :=
  let env := worker_env w in
  let conf :=
    [("bootstrap.servers", CStr (Config.BOOTSTRAP_SERVERS env));
     ("group.id", CStr (Config.GROUP_ID env));
     ("auto.offset.reset", CStr (Config.AUTO_OFFSET_RESET env));
     ("enable.auto.commit", CBool false)] in
  let conf :=
    match worker_group_instance_id w with
    | Some g => if String.eqb g "" then conf else conf ++ [("group.instance.id", CStr g)]
    | None => conf
    end in
  {| consumer_conf := conf;
     subscription := [Config.ORDER_TOPIC env; Config.INVENTORY_TOPIC env] |}.

(** [PeriodicReporter.__init__]: the metrics it reads and its interval. *)
Record PeriodicReporter := {
  reporter_metrics : MetricsAggregator;
  reporter_interval : Q
}.

Definition new_PeriodicReporter (m : MetricsAggregator) (interval_sec : Q) : PeriodicReporter :=
  {| reporter_metrics := m; reporter_interval := py_max interval_sec 1 |}.

(** What [main()] builds from the loaded settings before it waits: the
    shared aggregator, the worker, the HTTP server's address and the
    reporter, started only when [REPORT_INTERVAL_SEC > 0]. *)
Record MainSetup := {
  main_metrics : MetricsAggregator;
  main_worker : KafkaAnalyticsWorker;
  main_http : string * Z;
  main_reporter : option PeriodicReporter
}.

Definition main_setup (env : Config.Settings) : MainSetup :=
  let m := new_MetricsAggregator (Config.WINDOW_SEC env) in
  {| main_metrics := m;
     main_worker := new_KafkaAnalyticsWorker env m;
     main_http := (Config.HTTP_HOST env, Config.HTTP_PORT env);
     main_reporter :=
       if Qltb 0 (Config.REPORT_INTERVAL_SEC env)
       then Some (new_PeriodicReporter m (Config.REPORT_INTERVAL_SEC env))
       else None |}.

Section Startup.
Context `{PyStartup}.

(** [_load_env()]: [inl] is the exception it raises. In the success branch
    every required key holds a non-empty value, so the fallback [""] of the
    dict lookups is never taken. *)
Definition _load_env (os : OsEnv) : startup_exn + Config.Settings :=
  match env_missing os with
  | _ :: _ => inl (RuntimeError ("Missing required env vars: " +:+ py_join ", " (env_missing os)))
  | [] =>
      match py_float (getenv_or os "WINDOW_SEC" "60"),
            py_int_of_str (getenv_or os "THROTTLE_MS" "0"),
            py_int_of_str (getenv_or os "HTTP_PORT" "8080"),
            py_float (getenv_or os "REPORT_INTERVAL_SEC" "0") with
      | Some window, Some throttle, Some port, Some report =>
          inr {| Config.BOOTSTRAP_SERVERS := getenv_or os "BOOTSTRAP_SERVERS" "";
                 Config.ORDER_TOPIC := getenv_or os "ORDER_TOPIC" "";
                 Config.INVENTORY_TOPIC := getenv_or os "INVENTORY_TOPIC" "";
                 Config.GROUP_ID := getenv_or os "GROUP_ID" "";
                 Config.AUTO_OFFSET_RESET := getenv_or os "AUTO_OFFSET_RESET" "earliest";
                 Config.WINDOW_SEC := window;
                 Config.THROTTLE_MS := throttle;
                 Config.HTTP_HOST := getenv_or os "HTTP_HOST" "0.0.0.0";
                 Config.HTTP_PORT := port;
                 Config.REPORT_INTERVAL_SEC := report;
                 Config.GROUP_INSTANCE_ID :=
                   let g := py_strip (getenv_or os "GROUP_INSTANCE_ID" "") in
                   if String.eqb g "" then None else Some g |}
      | _, _, _, _ => inl ValueError
      end
  end.

End Startup.

(** A start-up runtime for sample environments: [float] and [int] accept
    decimal digit strings only, [strip] removes spaces at both ends. *)
Fixpoint digits_value (s : string) (acc : Z) : option Z :=
  match s with
  | EmptyString => Some acc
  | String c rest =>
      let n := Ascii.nat_of_ascii c in
      if Nat.leb 48 n && Nat.leb n 57 then digits_value rest (10 * acc + Z.of_nat (n - 48))%Z
      else None
  end.

Definition parse_digits (s : string) : option Z :=
  if String.eqb s "" then None else digits_value s 0.

Fixpoint strip_leading_spaces (s : string) : string :=
  match s with
  | String c rest => if String.eqb (String c EmptyString) " " then strip_leading_spaces rest else s
  | EmptyString => EmptyString
  end.

Definition sample_startup : PyStartup := {|
  py_float := fun s => option_map inject_Z (parse_digits s);
  py_int_of_str := parse_digits;
  py_strip := fun s =>
    String.string_of_list_ascii
      (rev (String.list_ascii_of_string
              (strip_leading_spaces
                 (String.string_of_list_ascii
                    (rev (String.list_ascii_of_string (strip_leading_spaces s)))))))
|}.


(** The payloads [{"order_id":null}] and [{"order_id":7}] as text. *)
Definition dq : string := String (Ascii.ascii_of_nat 34) EmptyString.

Definition null_order_payload : string := "{" +:+ dq +:+ "order_id" +:+ dq +:+ ":null}".

Definition seven_order_payload : string := "{" +:+ dq +:+ "order_id" +:+ dq +:+ ":7}".

(** A runtime whose JSON decoder reads these two payloads and [{}]. *)
Definition ids_runtime : PyLib := {|
  json_loads_utf8 := fun raw =>
    let txt := String.string_of_list_byte raw in
    if String.eqb txt null_order_payload then Some (JObj [("order_id", JNull)])
    else if String.eqb txt seven_order_payload then Some (JObj [("order_id", JNum "7")])
    else if String.eqb txt "{}" then Some (JObj [])
    else None;
  utf8_decode_ignore := fun raw =>
    String.string_of_list_byte (List.filter (fun b => Nat.ltb (Byte.to_nat b) 128) raw);
  sha1_of_dumps := fun payload =>
    match payload with JObj [] => "digest0" | _ => "digest1" end;
  str_container := fun _ => "";
  py_lower := fun s => s
|}.

(** A process environment with the four required variables set and no
    optional one. *)
Definition sample_os : OsEnv :=
  list_to_map [("BOOTSTRAP_SERVERS", "kafka:9092"); ("ORDER_TOPIC", "orders");
               ("INVENTORY_TOPIC", "inventory"); ("GROUP_ID", "analytics")].

Definition optional_keys : list string :=
  ["AUTO_OFFSET_RESET"; "WINDOW_SEC"; "THROTTLE_MS"; "HTTP_HOST"; "HTTP_PORT";
   "REPORT_INTERVAL_SEC"; "GROUP_INSTANCE_ID"].



(* ================================================================== *)
(** * Proofs *)

(** ** [FailureWindow] *)

Module FailureWindowFacts.

Lemma count_failures_nonneg ev : (0 <= count_failures ev)%Z.
Proof. induction ev as [|[? []] ? IH]; simpl; lia. Qed.

Lemma count_failures_le_length ev : (count_failures ev <= Z.of_nat (length ev))%Z.
Proof. induction ev as [|[? []] ? IH]; simpl; lia. Qed.

Lemma count_failures_app ev ev' :
  count_failures (ev ++ ev') = (count_failures ev + count_failures ev')%Z.
Proof. induction ev as [|[? []] ? IH]; simpl; try rewrite IH; lia. Qed.

(** The eviction loop keeps the counter equal to the number of
    [True]-flagged entries: each popped [True] entry is counted, so the
    [max(..., 0)] never clamps. *)
Lemma fw_evict_loop_count cutoff f ev :
  f = count_failures ev ->
  fst (fw_evict_loop cutoff f ev) = count_failures (snd (fw_evict_loop cutoff f ev)).
Proof.
  revert f. induction ev as [|[ts b] rest IH]; intros f Hf; simpl; [done|].
  destruct (Qltb ts cutoff); [|simpl; done].
  apply IH. pose proof (count_failures_nonneg rest). destruct b; simpl in Hf; lia.
Qed.

Definition fw_inv (fw : FailureWindow) : Prop :=
  fw_failures fw = count_failures (fw_events fw).

Lemma fw_evict_inv now fw : fw_inv fw -> fw_inv (fw_evict now fw).
Proof.
  unfold fw_inv, fw_evict. intros Hinv.
  pose proof (fw_evict_loop_count (now - fw_window fw) _ _ Hinv) as Hc.
  destruct (fw_evict_loop _ _ _). exact Hc.
Qed.

Lemma fw_evict_window now fw : fw_window (fw_evict now fw) = fw_window fw.
Proof. unfold fw_evict. by destruct (fw_evict_loop _ _ _). Qed.

Lemma fw_track_inv b now fw : fw_inv fw -> fw_inv (fw_track b now fw).
Proof.
  intros Hinv. apply fw_evict_inv. unfold fw_inv in *; simpl.
  rewrite count_failures_app, <- Hinv. destruct b; simpl; lia.
Qed.

(** [failure_rate_pct] never raises: it divides only by a non-zero total. *)
Lemma failure_rate_pct_ok now fw :
  exists q, failure_rate_pct now fw = Ok (q, fw_evict now fw).
Proof.
  unfold failure_rate_pct, totals.
  destruct (Z.eqb_spec (Z.of_nat (length (fw_events (fw_evict now fw)))) 0) as [Hz|Hz].
  - by eexists.
  - unfold py_truediv.
    destruct (Qeq_bool _ _) eqn:Hq.
    + apply Qeq_bool_iff in Hq. unfold Qeq in Hq. simpl in Hq. lia.
    + by eexists.
Qed.

Lemma failure_rate_pct_state now fw q fw' :
  failure_rate_pct now fw = Ok (q, fw') -> fw' = fw_evict now fw.
Proof.
  intros H. destruct (failure_rate_pct_ok now fw) as [q' H']. congruence.
Qed.

Lemma fw_apply_inv fw c : fw_inv fw -> fw_inv (fw_apply fw c).
Proof.
  destruct c as [now []]; simpl; intros Hinv.
  - by apply fw_track_inv.
  - by apply fw_evict_inv.
  - destruct (failure_rate_pct_ok now fw) as [q ->]. by apply fw_evict_inv.
Qed.

Lemma fw_run_inv calls fw : fw_inv fw -> fw_inv (fw_run calls fw).
Proof.
  unfold fw_run. revert fw. induction calls as [|c calls IH]; intros fw Hinv; simpl; [done|].
  apply IH, fw_apply_inv, Hinv.
Qed.

Lemma fw_run_window calls fw : fw_window (fw_run calls fw) = fw_window fw.
Proof.
  unfold fw_run. revert fw. induction calls as [|[now c] calls IH]; intros fw; simpl; [done|].
  rewrite IH. destruct c; simpl.
  - unfold fw_track. by rewrite fw_evict_window.
  - by rewrite fw_evict_window.
  - destruct (failure_rate_pct_ok now fw) as [q ->]. by rewrite fw_evict_window.
Qed.

(** A failure count between [0] and a positive total gives a percentage
    between [0] and [100]. *)
Lemma pct_bounds (f t : Z) :
  (0 <= f <= t)%Z -> (0 < t)%Z -> 0 <= inject_Z f / inject_Z t * 100 <= 100.
Proof.
  intros Hf Ht.
  assert (Ht' : 0 < inject_Z t) by (change 0 with (inject_Z 0); rewrite <- Zlt_Qlt; exact Ht).
  assert (H0 : 0 <= inject_Z f) by (change 0 with (inject_Z 0); rewrite <- Zle_Qle; lia).
  assert (H1 : inject_Z f <= inject_Z t) by (rewrite <- Zle_Qle; lia).
  assert (0 <= inject_Z f / inject_Z t).
  { apply Qle_shift_div_l; [exact Ht'|]. rewrite Qmult_0_l. exact H0. }
  assert (inject_Z f / inject_Z t <= 1).
  { apply Qle_shift_div_r; [exact Ht'|]. rewrite Qmult_1_l. exact H1. }
  split; lra.
Qed.

End FailureWindowFacts.

(** ** [UniqueOrderWindow]: the window size *)

Module WindowSize.

Lemma py_max_ge_1 W : 1 <= py_max W 1.
Proof.
  unfold py_max. destruct (Qle_bool 1 W) eqn:E; [apply Qle_bool_iff in E; exact E|].
  apply Qle_refl.
Qed.

Lemma uw_evict_window now w : uw_window (uw_evict now w) = uw_window w.
Proof. unfold uw_evict. by destruct (uw_evict_loop _ _ _). Qed.

Lemma uw_track_window o now w : uw_window (uw_track o now w) = uw_window w.
Proof.
  unfold uw_track. destruct o as [oid|]; [|done].
  destruct (String.eqb oid ""); [done|]. by rewrite uw_evict_window.
Qed.

Lemma uw_run_window calls w : uw_window (uw_run calls w) = uw_window w.
Proof.
  unfold uw_run. revert w. induction calls as [|[now c] calls IH]; intros w; simpl; [done|].
  rewrite IH. destruct c; simpl.
  - apply uw_track_window.
  - apply uw_evict_window.
  - apply uw_evict_window.
Qed.

End WindowSize.

(** ** Claims on the windows' rates *)

(** C6: [failure_rate_pct()] never raises (the division is taken only when
    the total is non-zero), and on a window with no live entry it returns
    [0.0]. *)
Theorem failure_rate_pct_empty_window (now : Q) (fw : FailureWindow) :
  (exists q, failure_rate_pct now fw = Ok (q, fw_evict now fw)) /\
  (fw_events (fw_evict now fw) = [] -> failure_rate_pct now fw = Ok (0, fw_evict now fw)).
Proof.
  split; [apply FailureWindowFacts.failure_rate_pct_ok|].
  intros Hempty. unfold failure_rate_pct, totals. rewrite Hempty. reflexivity.
Qed.

(** A failure tracked at [0] in a 60-second window has expired at [61]:
    the window is empty there and the rate is [0.0]. *)
Lemma failure_rate_pct_empty_window_witness :
  fw_events (fw_evict 61 (fw_track true 0 (new_FailureWindow 60))) = [] /\
  failure_rate_pct 61 (fw_track true 0 (new_FailureWindow 60)) =
    Ok (0, fw_evict 61 (fw_track true 0 (new_FailureWindow 60))).
Proof.
  assert (Hempty : fw_events (fw_evict 61 (fw_track true 0 (new_FailureWindow 60))) = [])
    by (vm_compute; reflexivity).
  split; [exact Hempty|].
  exact (proj2 (failure_rate_pct_empty_window 61 (fw_track true 0 (new_FailureWindow 60))) Hempty).
Defined.

(** C10: in every [FailureWindow] reached from a fresh one by any calls of
    [track], [totals] and [failure_rate_pct], the counter [_failures] equals
    the number of [True]-flagged entries of [_events]; hence every
    [totals()] result has [0 <= failures <= total] (and keeps the equality),
    and [failure_rate_pct()] returns a value in [[0, 100]]. *)
Theorem failure_window_counter_invariant (W : Q) (calls : list (Q * fw_call)) (now : Q) :
  let fw := fw_run calls (new_FailureWindow W) in
  fw_failures fw = count_failures (fw_events fw) /\
  (let '((total, fails), fw') := totals now fw in
   (0 <= fails <= total)%Z /\ fw_failures fw' = count_failures (fw_events fw')) /\
  (exists q, failure_rate_pct now fw = Ok (q, fw_evict now fw) /\ 0 <= q <= 100).
Proof.
  cbv zeta.
  assert (Hinv : FailureWindowFacts.fw_inv (fw_run calls (new_FailureWindow W))).
  { apply FailureWindowFacts.fw_run_inv. reflexivity. }
  set (fw := fw_run calls (new_FailureWindow W)) in *.
  pose proof (FailureWindowFacts.fw_evict_inv now fw Hinv) as Hinv'.
  unfold FailureWindowFacts.fw_inv in Hinv'.
  pose proof (FailureWindowFacts.count_failures_nonneg (fw_events (fw_evict now fw))).
  pose proof (FailureWindowFacts.count_failures_le_length (fw_events (fw_evict now fw))).
  split; [exact Hinv|]. split.
  - unfold totals. split; [lia|exact Hinv'].
  - unfold failure_rate_pct, totals.
    destruct (Z.eqb_spec (Z.of_nat (length (fw_events (fw_evict now fw)))) 0) as [Hz|Hz].
    + exists 0. split; [reflexivity|]. split; lra.
    + unfold py_truediv.
      destruct (Qeq_bool _ _) eqn:Hq.
      * apply Qeq_bool_iff in Hq. unfold Qeq in Hq. simpl in Hq. lia.
      * eexists. split; [reflexivity|].
        apply FailureWindowFacts.pct_bounds; lia.
Qed.

(** C7: for every window reached from [UniqueOrderWindow(W)] by any calls,
    [per_minute()] returns exactly [active_orders() * 60 / window] at the
    same clock reading, where [window = max(W, 1) >= 1] (so it never
    raises). *)
Theorem per_minute_is_count_rate (W : Q) (calls : list (Q * uw_call)) (now : Q) :
  let w := uw_run calls (new_UniqueOrderWindow W) in
  uw_window w = py_max W 1 /\ 1 <= uw_window w /\
  per_minute now w =
    Ok (inject_Z (fst (active_orders now w)) * 60 / py_max W 1, snd (active_orders now w)).
Proof.
  cbv zeta.
  pose proof (WindowSize.py_max_ge_1 W) as Hge.
  assert (Hw : uw_window (uw_run calls (new_UniqueOrderWindow W)) = py_max W 1).
  { rewrite WindowSize.uw_run_window. reflexivity. }
  split; [exact Hw|]. split; [rewrite Hw; exact Hge|].
  unfold per_minute, active_orders, py_truediv.
  rewrite WindowSize.uw_evict_window, Hw.
  destruct (Qeq_bool (py_max W 1) 0) eqn:Hq.
  - apply Qeq_bool_iff in Hq. rewrite Hq in Hge. exfalso; apply Hge; reflexivity.
  - reflexivity.
Qed.

(** ** [DuplicateFilter] *)

Module DuplicateFilterFacts.

Lemma Qltb_true a b : Qltb a b = true <-> a < b.
Proof.
  unfold Qltb. rewrite negb_true_iff. split.
  - intros H. apply Qnot_le_lt. intros Hle. apply Qle_bool_iff in Hle. congruence.
  - intros H. destruct (Qle_bool b a) eqn:E; [|done].
    apply Qle_bool_iff in E. exfalso. apply (Qlt_not_le a b); assumption.
Qed.

Lemma Qltb_false a b : Qltb a b = false <-> b <= a.
Proof.
  unfold Qltb. rewrite negb_false_iff. apply Qle_bool_iff.
Qed.

Definition ts_le (x y : Q * string) : Prop := fst x <= fst y.

Lemma StronglySorted_app_r {A} (R : A -> A -> Prop) l1 l2 :
  StronglySorted R (l1 ++ l2) -> StronglySorted R l2.
Proof.
  induction l1 as [|x l1 IH]; simpl; [done|].
  intros H. apply StronglySorted_inv in H as [H _]. auto.
Qed.

Lemma StronglySorted_snoc {A} (R : A -> A -> Prop) l x :
  StronglySorted R l -> (forall y, In y l -> R y x) -> StronglySorted R (l ++ [x]).
Proof.
  induction l as [|y l IH]; simpl; intros Hs Hle.
  - constructor; [constructor|constructor].
  - apply StronglySorted_inv in Hs as [Hs Hy]. constructor.
    + apply IH; auto.
    + apply Forall_app. split; [exact Hy|]. constructor; [apply Hle; auto|constructor].
Qed.

(** What the eviction loop does to a sorted, consistent filter: it drops a
    prefix of expired entries, keeps a suffix of live ones, and [_seen] is
    still the map of the kept entries. *)
Lemma df_evict_loop_spec cutoff seen order :
  StronglySorted ts_le order ->
  (forall i t, seen !! i = Some t <-> In (t, i) order) ->
  NoDup (map snd order) ->
  let '(seen', order') := df_evict_loop cutoff seen order in
  (forall i t, seen' !! i = Some t <-> In (t, i) order') /\
  (exists pre, order = pre ++ order' /\ Forall (fun x => fst x < cutoff) pre) /\
  Forall (fun x => cutoff <= fst x) order'.
Proof.
  revert seen. induction order as [|[ts i0] rest IH]; intros seen Hs Hseen Hnd; simpl.
  - split; [exact Hseen|]. split; [exists []; done|constructor].
  - destruct (Qltb ts cutoff) eqn:Hlt.
    + apply Qltb_true in Hlt.
      apply StronglySorted_inv in Hs as [Hs _].
      simpl in Hnd. apply NoDup_cons in Hnd as [Hni Hnd].
      assert (Hseen' : forall i t, delete i0 seen !! i = Some t <-> In (t, i) rest).
      { intros i t. destruct (decide (i = i0)) as [->|Hne].
        - rewrite lookup_delete_eq. split; [discriminate|].
          intros Hin. exfalso. apply Hni. apply (in_map snd) in Hin. apply list_elem_of_In. exact Hin.
        - rewrite lookup_delete_ne by congruence. rewrite Hseen. simpl.
          split; [intros [Heq|Hin]; [congruence|exact Hin]|auto]. }
      specialize (IH (delete i0 seen) Hs Hseen' Hnd).
      destruct (df_evict_loop cutoff (delete i0 seen) rest) as [seen' order'].
      destruct IH as (H1 & (pre & Hpre & Hfa) & H3).
      split; [exact H1|]. split; [|exact H3].
      exists ((ts, i0) :: pre). rewrite Hpre. split; [done|].
      constructor; [exact Hlt|exact Hfa].
    + apply Qltb_false in Hlt.
      split; [exact Hseen|]. split; [exists []; done|].
      apply StronglySorted_inv in Hs as [_ Hall].
      constructor; [exact Hlt|].
      eapply Forall_impl; [exact Hall|]. intros x Hx. unfold ts_le in Hx. simpl in Hx.
      eapply Qle_trans; eassumption.
Qed.

(** The simulation between the filter and the recordings of
    [spec_register], [T] being the last clock reading. *)
Record df_sim (df : DuplicateFilter) (recs : list (Q * string)) (T : Q) : Prop := {
  sim_sorted : StronglySorted ts_le (df_order df);
  sim_seen : forall i t, df_seen df !! i = Some t <-> In (t, i) (df_order df);
  sim_nodup : NoDup (map snd (df_order df));
  sim_recorded : forall x, In x (df_order df) -> In x recs;
  sim_expired : forall r i, In (r, i) recs -> In (r, i) (df_order df) \/ r < T - df_ttl df;
  sim_past : forall x, In x (df_order df) -> fst x <= T
}.

Lemma df_sim_new ttl T : df_sim (new_DuplicateFilter ttl) [] T.
Proof.
  constructor; simpl.
  - constructor.
  - intros i t. rewrite lookup_empty. split; [discriminate|done].
  - constructor.
  - intros x [].
  - intros r i [].
  - intros x [].
Qed.

Lemma df_evict_ttl now df : df_ttl (df_evict now df) = df_ttl df.
Proof. unfold df_evict. by destruct (df_evict_loop _ _ _). Qed.

Lemma register_ttl now i df : df_ttl (snd (register now i df)) = df_ttl df.
Proof.
  unfold register. rewrite <- (df_evict_ttl now df).
  by destruct (df_seen (df_evict now df) !! i).
Qed.

(** One [register] call keeps the simulation and gives the answer of
    [spec_register]. *)
Lemma register_sim df recs T now i :
  df_sim df recs T -> T <= now ->
  fst (register now i df) = fst (spec_register (df_ttl df) now i recs) /\
  df_sim (snd (register now i df)) (snd (spec_register (df_ttl df) now i recs)) now.
Proof.
  intros [Hsorted Hseen Hnd Hrec Hexp Hpast] Hle.
  pose proof (df_evict_loop_spec (now - df_ttl df) (df_seen df) (df_order df) Hsorted Hseen Hnd)
    as Hev.
  unfold register, df_evict.
  destruct (df_evict_loop (now - df_ttl df) (df_seen df) (df_order df)) as [seen' order'].
  simpl. destruct Hev as (Hseen' & (pre & Hpre & Hfa) & Hlive).
  rewrite List.Forall_forall in Hfa, Hlive.
  assert (Hsub : forall x, In x order' -> In x (df_order df)).
  { intros x Hx. rewrite Hpre. apply in_or_app. right. exact Hx. }
  assert (Hsorted' : StronglySorted ts_le order').
  { rewrite Hpre in Hsorted. eapply StronglySorted_app_r. exact Hsorted. }
  assert (Hnd' : NoDup (map snd order')).
  { rewrite Hpre, map_app in Hnd. apply NoDup_app in Hnd as (_ & _ & Hnd'). exact Hnd'. }
  assert (Hexp' : forall r j, In (r, j) recs -> In (r, j) order' \/ r < now - df_ttl df).
  { intros r j Hin. destruct (Hexp r j Hin) as [Hin'|Hlt].
    - rewrite Hpre in Hin'. apply in_app_or in Hin' as [Hp|Ho].
      + right. apply (Hfa _ Hp).
      + left. exact Ho.
    - right. lra. }
  unfold spec_register.
  destruct (seen' !! i) as [t|] eqn:Hl.
  - apply Hseen' in Hl as Hin.
    assert (Hex : existsb (fun '(r, j) => String.eqb j i && Qle_bool (now - df_ttl df) r) recs
                  = true).
    { apply existsb_exists. exists (t, i). split; [apply Hrec, Hsub, Hin|].
      rewrite String.eqb_refl. simpl. apply Qle_bool_iff. apply (Hlive _ Hin). }
    rewrite Hex. split; [reflexivity|].
    constructor; simpl; auto.
    intros x Hx. eapply Qle_trans; [apply Hpast, Hsub, Hx|exact Hle].
  - destruct (existsb _ recs) eqn:Hex.
    { exfalso. apply existsb_exists in Hex as [[r j] [Hin Hj]].
      apply andb_true_iff in Hj as [Hj Hr].
      apply String.eqb_eq in Hj. subst j. apply Qle_bool_iff in Hr.
      destruct (Hexp' r i Hin) as [Ho|Hlt]; [|lra].
      apply Hseen' in Ho. congruence. }
    split; [reflexivity|].
    assert (Hnot : forall t, ~ In (t, i) order').
    { intros t Ht. apply Hseen' in Ht. congruence. }
    constructor; simpl.
    + apply StronglySorted_snoc; [exact Hsorted'|].
      intros y Hy. unfold ts_le. simpl. eapply Qle_trans; [apply Hpast, Hsub, Hy|exact Hle].
    + intros j t. destruct (decide (j = i)) as [->|Hne].
      * rewrite lookup_insert_eq. split.
        -- intros Heq. injection Heq as <-. apply in_or_app. right. left. reflexivity.
        -- intros Hin. apply in_app_or in Hin as [Ho|[Heq|[]]].
           ++ exfalso. exact (Hnot t Ho).
           ++ injection Heq as ->. reflexivity.
      * rewrite lookup_insert_ne by congruence. rewrite Hseen'. split.
        -- intros Hin. apply in_or_app. left. exact Hin.
        -- intros Hin. apply in_app_or in Hin as [Ho|[Heq|[]]]; [exact Ho|congruence].
    + rewrite map_app. apply NoDup_app. split; [exact Hnd'|]. split; [|apply NoDup_singleton].
      intros x Hx Hx'. apply list_elem_of_singleton in Hx'. subst x.
      apply list_elem_of_In, in_map_iff in Hx as [[t j] [Hj Hin]]. simpl in Hj. subst j.
      exact (Hnot t Hin).
    + intros x Hx. apply in_app_or in Hx as [Ho|Hn]; apply in_or_app.
      * left. apply Hrec, Hsub, Ho.
      * right. exact Hn.
    + intros r j Hin. apply in_app_or in Hin as [Hr|Hn].
      * destruct (Hexp' r j Hr) as [Ho|Hlt]; [left; apply in_or_app; left; exact Ho|right; exact Hlt].
      * left. apply in_or_app. right. exact Hn.
    + intros x Hx. apply in_app_or in Hx as [Ho|[<-|[]]].
      * eapply Qle_trans; [apply Hpast, Hsub, Ho|exact Hle].
      * apply Qle_refl.
Qed.

Lemma df_run_sim calls : forall df recs T now,
  df_sim df recs T -> clock_from T calls now ->
  fst (df_run calls df) = fst (spec_run (df_ttl df) calls recs) /\
  df_ttl (snd (df_run calls df)) = df_ttl df /\
  exists T', T' <= now /\ df_sim (snd (df_run calls df)) (snd (spec_run (df_ttl df) calls recs)) T'.
Proof.
  induction calls as [|[t i] rest IH]; intros df recs T now Hsim Hclock; simpl.
  - split; [reflexivity|]. split; [reflexivity|]. exists T. split; [exact Hclock|exact Hsim].
  - destruct Hclock as [HT Hrest].
    pose proof (register_sim df recs T t i Hsim HT) as [Hb Hsim'].
    pose proof (register_ttl t i df) as Httl.
    destruct (register t i df) as [b df'] eqn:Er.
    destruct (spec_register (df_ttl df) t i recs) as [b' recs'] eqn:Es.
    simpl in *. subst b'.
    specialize (IH df' recs' t now Hsim' Hrest). rewrite Httl in IH.
    destruct (df_run rest df') as [bs df''].
    destruct (spec_run (df_ttl df) rest recs') as [bs' recs''].
    simpl in *. destruct IH as (Hbs & Httl' & IH).
    split; [congruence|]. split; [congruence|exact IH].
Qed.

End DuplicateFilterFacts.

(** C3: along any sequence of [register] calls on [DuplicateFilter(ttl)]
    whose clock never goes backwards, every answer equals that of the
    contract [spec_register] (with [T = max(ttl, 1)]); and for the next call
    [register(event_id)]: it answers [true] exactly when [event_id] was
    recorded at some [r] with [now - T <= r], and then leaves the filter as
    the eviction left it (no timestamp refresh); otherwise it answers
    [false] and records [event_id] at [now]. *)
Theorem register_matches_contract (ttl_seconds T0 now : Q) (calls : list (Q * string))
    (event_id : string) (Hclock : clock_from T0 calls now) :
  let df := snd (df_run calls (new_DuplicateFilter ttl_seconds)) in
  let recs := snd (spec_run (py_max ttl_seconds 1) calls []) in
  fst (df_run calls (new_DuplicateFilter ttl_seconds)) =
    fst (spec_run (py_max ttl_seconds 1) calls []) /\
  let '(dup, df') := register now event_id df in
  (dup = true <-> exists r, In (r, event_id) recs /\ now - py_max ttl_seconds 1 <= r) /\
  (dup = true -> df' = df_evict now df) /\
  (dup = false -> df_seen df' = <[event_id := now]> (df_seen (df_evict now df)) /\
                  df_order df' = df_order (df_evict now df) ++ [(now, event_id)]).
Proof.
  cbv zeta.
  destruct (DuplicateFilterFacts.df_run_sim calls (new_DuplicateFilter ttl_seconds) [] T0 now
              (DuplicateFilterFacts.df_sim_new ttl_seconds T0) Hclock)
    as (Hbs & Httl & T' & HT' & Hsim).
  simpl in Hbs, Httl. split; [exact Hbs|].
  set (df := snd (df_run calls (new_DuplicateFilter ttl_seconds))) in *.
  set (recs := snd (spec_run (py_max ttl_seconds 1) calls [])) in *.
  destruct (DuplicateFilterFacts.register_sim df recs T' now event_id Hsim HT') as [Hb _].
  rewrite Httl in Hb.
  destruct (register now event_id df) as [dup df'] eqn:Er.
  simpl in Hb. split; [|split].
  - rewrite Hb. unfold spec_register.
    destruct (existsb _ recs) eqn:Hex; simpl.
    + apply existsb_exists in Hex as [[r j] [Hin Hj]].
      apply andb_true_iff in Hj as [Hj Hr]. apply String.eqb_eq in Hj. subst j.
      apply Qle_bool_iff in Hr. split; [intros _; exists r; split; assumption|reflexivity].
    + split; [discriminate|]. intros [r [Hin Hr]].
      assert (Ht : existsb (fun '(r, j) => String.eqb j event_id && Qle_bool (now - py_max ttl_seconds 1) r) recs = true).
      { apply existsb_exists. exists (r, event_id). split; [exact Hin|].
        rewrite String.eqb_refl. simpl. apply Qle_bool_iff. exact Hr. }
      congruence.
  - intros ->. unfold register in Er.
    destruct (df_seen (df_evict now df) !! event_id); congruence.
  - intros ->. unfold register in Er.
    destruct (df_seen (df_evict now df) !! event_id); [congruence|].
    injection Er as <-. split; reflexivity.
Qed.

(** A recording at [0] answers [true] to the same identity at [30] and,
    with [ttl = 60], [false] again at [61]. *)
Lemma register_matches_contract_witness :
  clock_from 0 [(0, "a"); (30, "a")] 61 /\
  fst (df_run [(0, "a"); (30, "a"); (61, "a")] (new_DuplicateFilter 60)) = [false; true; false] /\
  (fst (register 61 "a" (snd (df_run [(0, "a"); (30, "a")] (new_DuplicateFilter 60)))) = true <->
   exists r, In (r, "a") (snd (spec_run (py_max 60 1) [(0, "a"); (30, "a")] [])) /\
             61 - py_max 60 1 <= r).
Proof.
  assert (Hc : clock_from 0 [(0, "a"); (30, "a")] 61)
    by (simpl; repeat split; vm_compute; discriminate).
  split; [exact Hc|]. split; [vm_compute; reflexivity|].
  pose proof (register_matches_contract 60 0 61 [(0, "a"); (30, "a")] "a" Hc) as [_ H].
  destruct (register 61 "a" _) as [dup df'] eqn:E. simpl. exact (proj1 H).
Defined.

(** ** [UniqueOrderWindow]: which keys are live *)

Module UniqueOrderWindowFacts.
Import DuplicateFilterFacts.

(** The eviction loop removes exactly the keys whose stored timestamp is
    before the cutoff, and keeps the suffix of live entries. *)
Lemma uw_evict_loop_spec cutoff entries order :
  StronglySorted ts_le order ->
  (forall k t, entries !! k = Some t -> In (t, k) order) ->
  let '(entries', order') := uw_evict_loop cutoff entries order in
  (forall k t, entries' !! k = Some t <-> entries !! k = Some t /\ cutoff <= t) /\
  (exists pre, order = pre ++ order' /\ Forall (fun x => fst x < cutoff) pre) /\
  Forall (fun x => cutoff <= fst x) order'.
Proof.
  revert entries. induction order as [|[ts k0] rest IH]; intros entries Hs Hin; simpl.
  - split; [|split; [exists []; done|constructor]].
    intros k t. split; [intros H; destruct (Hin k t H)|intros [H _]; destruct (Hin k t H)].
  - destruct (Qltb ts cutoff) eqn:Hlt.
    + apply Qltb_true in Hlt.
      apply StronglySorted_inv in Hs as [Hs _].
      set (entries1 := match entries !! k0 with
                       | Some ts' => if Qeq_bool ts' ts then delete k0 entries else entries
                       | None => entries end).
      assert (Hin1 : forall k t, entries1 !! k = Some t -> In (t, k) rest).
      { intros k t H. subst entries1.
        destruct (entries !! k0) as [ts'|] eqn:E0; [destruct (Qeq_bool ts' ts) eqn:Eq|].
        - destruct (decide (k = k0)) as [->|Hne].
          + rewrite lookup_delete_eq in H. discriminate.
          + rewrite lookup_delete_ne in H by congruence.
            destruct (Hin k t H) as [Heq|Hr]; [congruence|exact Hr].
        - destruct (Hin k t H) as [Heq|Hr]; [|exact Hr].
          injection Heq as <- <-. rewrite E0 in H. injection H as Hts. subst ts'.
          exfalso. assert (Qeq_bool ts ts = true) by (apply Qeq_bool_iff; reflexivity).
          congruence.
        - destruct (Hin k t H) as [Heq|Hr]; [|exact Hr].
          injection Heq as <- <-. congruence. }
      specialize (IH entries1 Hs Hin1).
      destruct (uw_evict_loop cutoff entries1 rest) as [entries' order'].
      destruct IH as (H1 & (pre & Hpre & Hfa) & H3).
      split; [|split; [exists ((ts, k0) :: pre); rewrite Hpre; split; [done|constructor; assumption]
                     |exact H3]].
      intros k t. rewrite H1. subst entries1.
      destruct (entries !! k0) as [ts'|] eqn:E0; [destruct (Qeq_bool ts' ts) eqn:Eq|]; try done.
      apply Qeq_bool_iff in Eq.
      destruct (decide (k = k0)) as [->|Hne].
      * rewrite lookup_delete_eq, E0. split; [intros [H _]; discriminate|].
        intros [H Hc]. injection H as ->. exfalso. lra.
      * rewrite lookup_delete_ne by congruence. done.
    + apply Qltb_false in Hlt.
      apply StronglySorted_inv in Hs as [_ Hall].
      assert (Hlive : Forall (fun x => cutoff <= fst x) ((ts, k0) :: rest)).
      { constructor; [exact Hlt|].
        eapply Forall_impl; [exact Hall|]. intros x Hx. unfold ts_le in Hx. simpl in Hx.
        eapply Qle_trans; eassumption. }
      split; [|split; [exists []; done|exact Hlive]].
      intros k t. split; [|intros [H _]; exact H].
      intros H. split; [exact H|].
      rewrite List.Forall_forall in Hlive. apply (Hlive (t, k)), Hin, H.
Qed.

Lemma last_track_snoc hist x key :
  last_track (hist ++ [x]) key =
    match last_track [x] key with Some t => Some t | None => last_track hist key end.
Proof.
  induction hist as [|[t c] hist IH].
  - cbn [app]. by destruct (last_track [x] key).
  - cbn [app]. remember (last_track [x] key) as lx eqn:Hlx.
    simpl. rewrite IH. destruct c as [[k|]| |]; try done.
    destruct lx; [done|]. by destruct (last_track hist key).
Qed.

(** The window against the history [hist] of its calls: [T] is the last
    clock reading, [c] the cutoff of the last eviction. *)
Record uw_sim (w : UniqueOrderWindow) (hist : list (Q * uw_call)) (T c : Q) : Prop := {
  usim_window : 1 <= uw_window w;
  usim_cutoff : c <= T - uw_window w;
  usim_sorted : StronglySorted ts_le (uw_order w);
  usim_last : forall k t, uw_entries w !! k = Some t -> last_track hist k = Some t;
  usim_kept : forall k t, last_track hist k = Some t -> c <= t -> uw_entries w !! k = Some t;
  usim_order : forall k t, uw_entries w !! k = Some t -> In (t, k) (uw_order w);
  usim_live : forall k t, uw_entries w !! k = Some t -> c <= t;
  usim_past : forall x, In x (uw_order w) -> fst x <= T
}.

Lemma uw_sim_new W T : uw_sim (new_UniqueOrderWindow W) [] T (T - py_max W 1).
Proof.
  pose proof (WindowSize.py_max_ge_1 W) as Hw.
  constructor; simpl; try (intros k t H; rewrite lookup_empty in H; discriminate).
  - exact Hw.
  - apply Qle_refl.
  - constructor.
  - intros k t H. discriminate.
  - intros x [].
Qed.

Lemma uw_sim_later w hist T c now :
  uw_sim w hist T c -> T <= now -> uw_sim w hist now c.
Proof.
  intros [Hw Hc Hs Hl Hk Ho Hlv Hp] Hle. constructor; auto.
  - lra.
  - intros x Hx. eapply Qle_trans; [apply Hp, Hx|exact Hle].
Qed.

Lemma uw_sim_hist w hist T c x :
  uw_sim w hist T c -> (forall key, last_track [x] key = None) -> uw_sim w (hist ++ [x]) T c.
Proof.
  intros [Hw Hc Hs Hl Hk Ho Hlv Hp] Hx. constructor; auto.
  - intros k t H. rewrite last_track_snoc, Hx. auto.
  - intros k t H. rewrite last_track_snoc, Hx in H. auto.
Qed.

Lemma uw_evict_sim w hist T c now :
  uw_sim w hist T c -> T <= now -> uw_sim (uw_evict now w) hist now (now - uw_window w).
Proof.
  intros [Hw Hc Hs Hl Hk Ho Hlv Hp] Hle.
  pose proof (uw_evict_loop_spec (now - uw_window w) (uw_entries w) (uw_order w) Hs Ho) as Hev.
  unfold uw_evict.
  destruct (uw_evict_loop (now - uw_window w) (uw_entries w) (uw_order w)) as [e' o'].
  destruct Hev as (He & (pre & Hpre & Hfa) & Hlive).
  rewrite List.Forall_forall in Hfa.
  constructor; simpl.
  - exact Hw.
  - apply Qle_refl.
  - rewrite Hpre in Hs. eapply StronglySorted_app_r. exact Hs.
  - intros k t H. apply He in H as [H _]. auto.
  - intros k t H Ht. apply He. split; [|exact Ht]. apply Hk; [exact H|lra].
  - intros k t H. apply He in H as [H Ht]. apply Ho in H. rewrite Hpre in H.
    apply in_app_or in H as [Hin|Hin]; [|exact Hin].
    apply Hfa in Hin. simpl in Hin. exfalso. lra.
  - intros k t H. apply He in H as [_ Ht]. exact Ht.
  - intros x Hx. eapply Qle_trans; [apply Hp|exact Hle].
    rewrite Hpre. apply in_or_app. right. exact Hx.
Qed.

Lemma uw_insert_sim w hist T c now k :
  uw_sim w hist T c -> T <= now -> String.eqb k "" = false ->
  uw_sim {| uw_window := uw_window w; uw_entries := <[k := now]> (uw_entries w);
            uw_order := uw_order w ++ [(now, k)] |}
         (hist ++ [(now, UwTrack (Some k))]) now c.
Proof.
  intros [Hw Hc Hs Hl Hk Ho Hlv Hp] Hle Hk0.
  assert (Hlast : forall key, last_track (hist ++ [(now, UwTrack (Some k))]) key =
                    if String.eqb k key then Some now else last_track hist key).
  { intros key. rewrite last_track_snoc. simpl.
    destruct (String.eqb_spec k key) as [<-|Hne]; simpl; [by rewrite Hk0|done]. }
  constructor; simpl.
  - exact Hw.
  - lra.
  - apply StronglySorted_snoc; [exact Hs|].
    intros y Hy. unfold ts_le. simpl. eapply Qle_trans; [apply Hp, Hy|exact Hle].
  - intros key t H. rewrite Hlast.
    destruct (String.eqb_spec k key) as [<-|Hne].
    + rewrite lookup_insert_eq in H. exact H.
    + rewrite lookup_insert_ne in H by exact Hne. auto.
  - intros key t H Ht. rewrite Hlast in H.
    destruct (String.eqb_spec k key) as [<-|Hne].
    + rewrite lookup_insert_eq. exact H.
    + rewrite lookup_insert_ne by exact Hne. auto.
  - intros key t H. apply in_or_app.
    destruct (String.eqb_spec k key) as [<-|Hne].
    + rewrite lookup_insert_eq in H. injection H as <-. right. left. reflexivity.
    + rewrite lookup_insert_ne in H by exact Hne. left. auto.
  - intros key t H.
    destruct (String.eqb_spec k key) as [<-|Hne].
    + rewrite lookup_insert_eq in H. injection H as <-. lra.
    + rewrite lookup_insert_ne in H by exact Hne. eauto.
  - intros x Hx. apply in_app_or in Hx as [Hx|[<-|[]]].
    + eapply Qle_trans; [apply Hp, Hx|exact Hle].
    + apply Qle_refl.
Qed.

Lemma uw_apply_sim w hist T c now call :
  uw_sim w hist T c -> T <= now ->
  exists c', uw_sim (uw_apply w (now, call)) (hist ++ [(now, call)]) now c'.
Proof.
  intros Hsim Hle.
  assert (Hidle : (forall key, last_track [(now, call)] key = None) ->
                  uw_sim w (hist ++ [(now, call)]) now c).
  { intros Hx. apply uw_sim_hist; [|exact Hx]. eapply uw_sim_later; eassumption. }
  assert (Hev : (forall key, last_track [(now, call)] key = None) ->
                uw_sim (uw_evict now w) (hist ++ [(now, call)]) now (now - uw_window w)).
  { intros Hx. apply uw_sim_hist; [|exact Hx]. eapply uw_evict_sim; eassumption. }
  destruct call as [[k|]| |]; simpl.
  - destruct (String.eqb k "") eqn:Hk0.
    + exists c. apply Hidle. intros key. simpl.
      apply String.eqb_eq in Hk0. subst k.
      destruct (String.eqb_spec "" key) as [<-|]; reflexivity.
    + eexists. apply (uw_evict_sim _ _ now c now); [|apply Qle_refl].
      apply (uw_insert_sim _ _ T); assumption.
  - exists c. apply Hidle. reflexivity.
  - eexists. apply Hev. reflexivity.
  - eexists. apply Hev. reflexivity.
Qed.

Lemma uw_run_sim now calls : forall w hist T c,
  uw_sim w hist T c -> clock_from T calls now ->
  exists T' c', T' <= now /\ uw_sim (uw_run calls w) (hist ++ calls) T' c'.
Proof.
  unfold uw_run.
  induction calls as [|[t call] rest IH]; intros w hist T c Hsim Hclock; simpl.
  - exists T, c. rewrite app_nil_r. split; assumption.
  - destruct Hclock as [HT Hrest].
    destruct (uw_apply_sim w hist T c t call Hsim HT) as [c' Hsim'].
    destruct (IH _ _ _ _ Hsim' Hrest) as (T' & c'' & HT' & Hfin).
    exists T', c''. split; [exact HT'|]. rewrite <- app_assoc in Hfin. exact Hfin.
Qed.

End UniqueOrderWindowFacts.

(** C4: along any calls of [track], [per_minute] and [active_orders] on
    [UniqueOrderWindow(W)] whose clock never goes backwards, the
    [active_orders()] at [now] counts the keys of [_entries], and a key is
    in [_entries] (with timestamp [t]) exactly when its most recent
    effective [track] was at [t] with [now - max(W, 1) <= t]: no key whose
    last track is older than the window is counted, and a re-tracked key
    stays counted for the window after its latest track. *)
Theorem active_orders_live_keys (W T0 now : Q) (calls : list (Q * uw_call))
    (Hclock : clock_from T0 calls now) :
  let '(n, w') := active_orders now (uw_run calls (new_UniqueOrderWindow W)) in
  n = Z.of_nat (size (uw_entries w')) /\
  forall key t,
    uw_entries w' !! key = Some t <-> last_track calls key = Some t /\ now - py_max W 1 <= t.
Proof.
  destruct (UniqueOrderWindowFacts.uw_run_sim now calls (new_UniqueOrderWindow W) [] T0
              (T0 - py_max W 1) (UniqueOrderWindowFacts.uw_sim_new W T0) Hclock)
    as (T' & c' & HT' & Hsim).
  simpl in Hsim.
  pose proof (UniqueOrderWindowFacts.uw_evict_sim _ _ _ _ now Hsim HT') as Hfin.
  rewrite WindowSize.uw_run_window in Hfin. simpl in Hfin.
  unfold active_orders. split; [reflexivity|].
  destruct Hfin as [_ _ _ Hl Hk _ Hlv _].
  intros key t. split.
  - intros H. split; [apply Hl, H|apply (Hlv _ _ H)].
  - intros [H Ht]. apply Hk; assumption.
Qed.

(** Order ["X"] tracked at [0] in a 60 s window: live at [30], gone at [61]. *)
Lemma active_orders_live_keys_witness :
  clock_from 0 [(0, UwTrack (Some "X"))] 61 /\
  fst (active_orders 30 (uw_run [(0, UwTrack (Some "X"))] (new_UniqueOrderWindow 60))) = 1%Z /\
  fst (active_orders 61 (uw_run [(0, UwTrack (Some "X"))] (new_UniqueOrderWindow 60))) = 0%Z /\
  (forall t, uw_entries (snd (active_orders 61 (uw_run [(0, UwTrack (Some "X"))]
                                                     (new_UniqueOrderWindow 60)))) !! "X" = Some t <->
             last_track [(0, UwTrack (Some "X"))] "X" = Some t /\ 61 - py_max 60 1 <= t).
Proof.
  assert (Hc : clock_from 0 [(0, UwTrack (Some "X"))] 61) by (simpl; split; discriminate).
  split; [exact Hc|]. split; [vm_compute; reflexivity|]. split; [vm_compute; reflexivity|].
  pose proof (active_orders_live_keys 60 0 61 [(0, UwTrack (Some "X"))] Hc) as H.
  destruct (active_orders 61 _) as [n w'] eqn:E. simpl. intros t. exact (proj2 H "X" t).
Defined.

(** ** The worker's handling of one polled message *)

(** Sample worker state and deliveries. *)
Definition sample_env : Env := {| ORDER_TOPIC := "orders"; INVENTORY_TOPIC := "inventory" |}.

Definition fresh_worker : WorkerState :=
  {| metrics := new_MetricsAggregator 60; deduper := new_DuplicateFilter 60; commits := [] |}.

Definition corrupt_order_message : Message :=
  {| msg_topic := "orders"; msg_partition := 0; msg_offset := 7;
     msg_key := Some [Byte.x31]; msg_value := Some [Byte.xff] |}.

(** C1 (as the code does it): a message whose payload does not decode
    ([UnicodeDecodeError] or [JSONDecodeError]) makes no record call and
    leaves the duplicate filter alone, so the aggregator, and with it every
    snapshot, is unchanged; but [run()] still commits the message, since
    [_handle_message] returns normally. *)
Theorem decode_failure_skips_but_commits {L : PyLib} (env : Env) (t_reg t_rec : Q)
    (msg : Message) (ws : WorkerState) (Hdec : _decode_payload (msg_value msg) = None) :
  run_step env t_reg t_rec (PollMessage msg) ws =
    Ok {| metrics := metrics ws; deduper := deduper ws; commits := commits ws ++ [msg] |}.
Proof.
  unfold run_step, _handle_message. rewrite Hdec. reflexivity.
Qed.

Lemma decode_failure_skips_but_commits_witness :
  @_decode_payload sample_runtime (msg_value corrupt_order_message) = None /\
  @run_step sample_runtime sample_env 0 0 (PollMessage corrupt_order_message) fresh_worker =
    Ok {| metrics := metrics fresh_worker; deduper := deduper fresh_worker;
          commits := commits fresh_worker ++ [corrupt_order_message] |}.
Proof.
  assert (Hdec : @_decode_payload sample_runtime (msg_value corrupt_order_message) = None)
    by reflexivity.
  split; [exact Hdec|].
  exact (@decode_failure_skips_but_commits sample_runtime sample_env 0 0
           corrupt_order_message fresh_worker Hdec).
Defined.

(** C1 as stated fails: the malformed message is committed. *)
Lemma decode_failure_commit_counterexample :
  ~ (forall (L : PyLib) (env : Env) (t_reg t_rec : Q) (msg : Message) (ws ws' : WorkerState),
       _decode_payload (msg_value msg) = None ->
       run_step env t_reg t_rec (PollMessage msg) ws = Ok ws' ->
       commits ws' = commits ws).
Proof.
  intros Hclaim.
  specialize (Hclaim sample_runtime sample_env 0 0 corrupt_order_message fresh_worker
                {| metrics := metrics fresh_worker; deduper := deduper fresh_worker;
                   commits := [corrupt_order_message] |} eq_refl eq_refl).
  simpl in Hclaim. discriminate.
Qed.

(** ** Duplicate deliveries *)

Module DuplicateDelivery.
Import DuplicateFilterFacts.

(** Eviction on a consistent filter, whatever the clock did. *)
Lemma df_evict_loop_wf cutoff seen order :
  (forall i t, seen !! i = Some t <-> In (t, i) order) ->
  NoDup (map snd order) ->
  let '(seen', order') := df_evict_loop cutoff seen order in
  (forall i t, seen' !! i = Some t <-> In (t, i) order') /\
  exists pre, order = pre ++ order' /\ Forall (fun x => fst x < cutoff) pre.
Proof.
  revert seen. induction order as [|[ts i0] rest IH]; intros seen Hseen Hnd; simpl.
  - split; [exact Hseen|]. exists []. done.
  - destruct (Qltb ts cutoff) eqn:Hlt.
    + apply Qltb_true in Hlt.
      simpl in Hnd. apply NoDup_cons in Hnd as [Hni Hnd].
      assert (Hseen' : forall i t, delete i0 seen !! i = Some t <-> In (t, i) rest).
      { intros i t. destruct (decide (i = i0)) as [->|Hne].
        - rewrite lookup_delete_eq. split; [discriminate|].
          intros Hin. exfalso. apply Hni. apply (in_map snd) in Hin.
          apply list_elem_of_In. exact Hin.
        - rewrite lookup_delete_ne by congruence. rewrite Hseen. simpl.
          split; [intros [Heq|Hin]; [congruence|exact Hin]|auto]. }
      specialize (IH (delete i0 seen) Hseen' Hnd).
      destruct (df_evict_loop cutoff (delete i0 seen) rest) as [seen' order'].
      destruct IH as (H1 & pre & Hpre & Hfa).
      split; [exact H1|].
      exists ((ts, i0) :: pre). rewrite Hpre. split; [done|].
      constructor; [exact Hlt|exact Hfa].
    + split; [exact Hseen|]. exists []. done.
Qed.

Lemma df_evict_wf now df :
  df_wf df ->
  df_wf (df_evict now df) /\
  (forall i r, df_seen df !! i = Some r -> now - df_ttl df <= r ->
               df_seen (df_evict now df) !! i = Some r).
Proof.
  intros [Hseen Hnd].
  pose proof (df_evict_loop_wf (now - df_ttl df) (df_seen df) (df_order df) Hseen Hnd) as Hev.
  unfold df_evict.
  destruct (df_evict_loop (now - df_ttl df) (df_seen df) (df_order df)) as [seen' order'].
  destruct Hev as (Hseen' & pre & Hpre & Hfa). simpl.
  split; [split|].
  - exact Hseen'.
  - rewrite Hpre, map_app in Hnd. apply NoDup_app in Hnd as (_ & _ & Hnd'). exact Hnd'.
  - intros i r Hr Hle. apply Hseen in Hr. rewrite Hpre in Hr.
    apply in_app_or in Hr as [Hp|Ho].
    + rewrite List.Forall_forall in Hfa. apply Hfa in Hp. simpl in Hp. exfalso. lra.
    + apply Hseen'. exact Ho.
Qed.

Lemma register_wf now i df :
  df_wf df -> df_wf (snd (register now i df)).
Proof.
  intros Hwf. destruct (df_evict_wf now df Hwf) as [[Hseen Hnd] _].
  unfold register. destruct (df_seen (df_evict now df) !! i) as [t|] eqn:Hl; simpl.
  - split; assumption.
  - assert (Hnot : forall t, ~ In (t, i) (df_order (df_evict now df))).
    { intros t Ht. apply Hseen in Ht. congruence. }
    split; simpl.
    + intros j t. destruct (decide (j = i)) as [->|Hne].
      * rewrite lookup_insert_eq. split.
        -- intros Heq. injection Heq as <-. apply in_or_app. right. left. reflexivity.
        -- intros Hin. apply in_app_or in Hin as [Ho|[Heq|[]]].
           ++ exfalso. exact (Hnot t Ho).
           ++ injection Heq as ->. reflexivity.
      * rewrite lookup_insert_ne by congruence. rewrite Hseen. split.
        -- intros Hin. apply in_or_app. left. exact Hin.
        -- intros Hin. apply in_app_or in Hin as [Ho|[Heq|[]]]; [exact Ho|congruence].
    + rewrite map_app. apply NoDup_app. split; [exact Hnd|]. split; [|apply NoDup_singleton].
      intros x Hx Hx'. apply list_elem_of_singleton in Hx'. subst x.
      apply list_elem_of_In, in_map_iff in Hx as [[t j] [Hj Hin]]. simpl in Hj. subst j.
      exact (Hnot t Hin).
Qed.

(** A first delivery leaves its identity recorded at the registration time. *)
Lemma register_records now i df :
  df_seen (df_evict now df) !! i = None ->
  register now i df = (false, {| df_ttl := df_ttl df;
                                 df_seen := <[i := now]> (df_seen (df_evict now df));
                                 df_order := df_order (df_evict now df) ++ [(now, i)] |}).
Proof.
  intros Hl. unfold register. rewrite Hl. f_equal. f_equal. apply df_evict_ttl.
Qed.

Lemma df_wf_new ttl : df_wf (new_DuplicateFilter ttl).
Proof.
  split; simpl.
  - intros i t. rewrite lookup_empty. split; [discriminate|intros []].
  - constructor.
Qed.

Lemma handle_duplicate {L : PyLib} env t_reg t_rec topic key value fields event_id ws r :
  _decode_payload value = Some (JObj fields) ->
  _event_id topic key (JObj fields) = Ok event_id ->
  df_wf (deduper ws) ->
  df_seen (deduper ws) !! event_id = Some r ->
  t_reg - df_ttl (deduper ws) <= r ->
  _handle_message env t_reg t_rec topic key value ws =
    Ok {| metrics := record_duplicate (metrics ws); deduper := df_evict t_reg (deduper ws);
          commits := commits ws |}.
Proof.
  intros Hdec Hid Hwf Hreg Hle.
  destruct (df_evict_wf t_reg (deduper ws) Hwf) as [_ Hkeep].
  unfold _handle_message. rewrite Hdec. cbv beta iota. rewrite Hid.
  unfold mbind, res_bind. cbv beta iota.
  unfold register. rewrite (Hkeep _ _ Hreg Hle). reflexivity.
Qed.

Lemma record_duplicate_iter n m :
  order_window (Nat.iter n record_duplicate m) = order_window m /\
  failure_window (Nat.iter n record_duplicate m) = failure_window m /\
  window_seconds (Nat.iter n record_duplicate m) = window_seconds m /\
  stat_orders (Nat.iter n record_duplicate m) = stat_orders m /\
  stat_inventory (Nat.iter n record_duplicate m) = stat_inventory m /\
  stat_duplicates (Nat.iter n record_duplicate m) = (stat_duplicates m + Z.of_nat n)%Z.
Proof.
  induction n as [|n IH]; simpl; [repeat split; lia|].
  destruct IH as (H1 & H2 & H3 & H4 & H5 & H6).
  repeat split; try assumption. rewrite H6. lia.
Qed.

Lemma handle_repeatedly_duplicates {L : PyLib} env topic key value fields event_id r times :
  forall ws,
  _decode_payload value = Some (JObj fields) ->
  _event_id topic key (JObj fields) = Ok event_id ->
  df_wf (deduper ws) ->
  df_seen (deduper ws) !! event_id = Some r ->
  (forall t, In t times -> fst t - df_ttl (deduper ws) <= r) ->
  exists ws', handle_repeatedly env times topic key value ws = Ok ws' /\
              metrics ws' = Nat.iter (length times) record_duplicate (metrics ws).
Proof.
  induction times as [|[t_reg t_rec] rest IH]; intros ws Hdec Hid Hwf Hreg Htimes; simpl.
  - exists ws. split; reflexivity.
  - assert (Hle : t_reg - df_ttl (deduper ws) <= r) by (apply (Htimes (t_reg, t_rec)); left; done).
    rewrite (handle_duplicate env t_reg t_rec topic key value fields event_id ws r
               Hdec Hid Hwf Hreg Hle).
    simpl.
    destruct (df_evict_wf t_reg (deduper ws) Hwf) as [Hwf' Hkeep].
    destruct (IH {| metrics := record_duplicate (metrics ws); deduper := df_evict t_reg (deduper ws);
                    commits := commits ws |} Hdec Hid Hwf' (Hkeep _ _ Hreg Hle)) as (ws' & Hrun & Hm).
    { intros t Ht. simpl. rewrite df_evict_ttl. apply Htimes. right. exact Ht. }
    exists ws'. split; [exact Hrun|]. rewrite Hm. simpl.
    clear. generalize (length rest). intros n. induction n as [|n IH]; simpl; congruence.
Qed.

(** [snapshot()] reads only the two windows and [window_seconds]. *)
Lemma snapshot_value_frame ta tb tc td m m' :
  order_window m' = order_window m -> failure_window m' = failure_window m ->
  window_seconds m' = window_seconds m ->
  snapshot_value ta tb tc td m' = snapshot_value ta tb tc td m.
Proof.
  intros H1 H2 H3. unfold snapshot_value, snapshot. rewrite H1, H2, H3.
  destruct (totals ta (failure_window m)) as [[iv fl] fw1].
  destruct (per_minute tb (order_window m)) as [[opm ow1]|e]; simpl; [|reflexivity].
  destruct (failure_rate_pct tc fw1) as [[rate fw2]|e]; reflexivity.
Qed.

End DuplicateDelivery.

Module FirstDelivery.
Import DuplicateFilterFacts DuplicateDelivery.

Lemma handle_first {L : PyLib} env t_reg t_rec topic key value fields event_id ws :
  _decode_payload value = Some (JObj fields) ->
  _event_id topic key (JObj fields) = Ok event_id ->
  df_seen (df_evict t_reg (deduper ws)) !! event_id = None ->
  exists ws1, _handle_message env t_reg t_rec topic key value ws = Ok ws1 /\
    deduper ws1 = snd (register t_reg event_id (deduper ws)) /\
    metrics ws1 =
      (if String.eqb topic (ORDER_TOPIC env) then
         record_order (_resolve_order_id key fields) t_rec (metrics ws)
       else if String.eqb topic (INVENTORY_TOPIC env) then
         record_inventory
           (String.eqb (py_lower (py_str (default (JStr "") (py_dict_get "status" fields))))
                       "failure") t_rec (metrics ws)
       else metrics ws).
Proof.
  intros Hdec Hid Hnew.
  unfold _handle_message. rewrite Hdec. cbv beta iota. rewrite Hid.
  unfold mbind, res_bind. cbv beta iota.
  rewrite (register_records t_reg event_id (deduper ws) Hnew). cbv beta iota.
  destruct (String.eqb topic (ORDER_TOPIC env)); [eexists; split; [reflexivity|]; split; reflexivity|].
  destruct (String.eqb topic (INVENTORY_TOPIC env)); eexists; split; try reflexivity; split; reflexivity.
Qed.

End FirstDelivery.

(** C5: handling a delivery whose identity is registered (recorded at [r],
    still within the filter's ttl at every repetition) any number of times
    only calls [record_duplicate]: [duplicates] grows by the number of
    repetitions, and both windows, [window_seconds], [orders], [inventory]
    and hence every snapshot field ([orders_per_min],
    [failure_rate_pct], ...) are unchanged. A first delivery instead
    records the business metric of its topic and leaves [duplicates]
    unchanged. *)
Theorem duplicate_delivery_only_counts {L : PyLib} (env : Env) (topic : string)
    (key value : option (list Byte.byte)) (fields : list (string * json)) (event_id : string)
    (r : Q) (times : list (Q * Q)) (ws : WorkerState)
    (Hdec : _decode_payload value = Some (JObj fields))
    (Hid : _event_id topic key (JObj fields) = Ok event_id)
    (Hwf : df_wf (deduper ws))
    (Hreg : df_seen (deduper ws) !! event_id = Some r)
    (Htimes : forall t, In t times -> fst t - df_ttl (deduper ws) <= r) :
  (exists ws', handle_repeatedly env times topic key value ws = Ok ws' /\
     stat_duplicates (metrics ws') = (stat_duplicates (metrics ws) + Z.of_nat (length times))%Z /\
     order_window (metrics ws') = order_window (metrics ws) /\
     failure_window (metrics ws') = failure_window (metrics ws) /\
     window_seconds (metrics ws') = window_seconds (metrics ws) /\
     stat_orders (metrics ws') = stat_orders (metrics ws) /\
     stat_inventory (metrics ws') = stat_inventory (metrics ws) /\
     (forall ta tb tc td, snapshot_value ta tb tc td (metrics ws') =
                          snapshot_value ta tb tc td (metrics ws))) /\
  (forall t_reg t_rec ws0,
     df_seen (df_evict t_reg (deduper ws0)) !! event_id = None ->
     exists ws1, _handle_message env t_reg t_rec topic key value ws0 = Ok ws1 /\
       stat_duplicates (metrics ws1) = stat_duplicates (metrics ws0) /\
       metrics ws1 =
         (if String.eqb topic (ORDER_TOPIC env) then
            record_order (_resolve_order_id key fields) t_rec (metrics ws0)
          else if String.eqb topic (INVENTORY_TOPIC env) then
            record_inventory
              (String.eqb (py_lower (py_str (default (JStr "") (py_dict_get "status" fields))))
                          "failure") t_rec (metrics ws0)
          else metrics ws0)).
Proof.
  split.
  - destruct (DuplicateDelivery.handle_repeatedly_duplicates env topic key value fields event_id r
                times ws Hdec Hid Hwf Hreg Htimes) as (ws' & Hrun & Hm).
    destruct (DuplicateDelivery.record_duplicate_iter (length times) (metrics ws))
      as (H1 & H2 & H3 & H4 & H5 & H6).
    rewrite <- Hm in H1, H2, H3, H4, H5, H6.
    exists ws'. split; [exact Hrun|]. split; [exact H6|].
    split; [exact H1|]. split; [exact H2|]. split; [exact H3|]. split; [exact H4|].
    split; [exact H5|].
    intros ta tb tc td. apply DuplicateDelivery.snapshot_value_frame; assumption.
  - intros t_reg t_rec ws0 Hnew.
    destruct (FirstDelivery.handle_first env t_reg t_rec topic key value fields event_id ws0
                Hdec Hid Hnew) as (ws1 & Hh & _ & Hm).
    exists ws1. split; [exact Hh|]. split; [|exact Hm].
    rewrite Hm. destruct (String.eqb topic (ORDER_TOPIC env)); [reflexivity|].
    destruct (String.eqb topic (INVENTORY_TOPIC env)); reflexivity.
Qed.

Lemma duplicate_delivery_only_counts_witness :
  df_wf (deduper worker_after_order_1) /\
  df_seen (deduper worker_after_order_1) !! order_1_id = Some 0 /\
  exists ws', @handle_repeatedly sample_runtime sample_env [(10, 10); (30, 30)] "orders"
                (Some [Byte.x31]) None worker_after_order_1 = Ok ws' /\
              stat_duplicates (metrics ws') = 2%Z /\
              stat_orders (metrics ws') = 0%Z.
Proof.
  assert (Hwf : df_wf (deduper worker_after_order_1)).
  { apply DuplicateDelivery.register_wf, DuplicateDelivery.df_wf_new. }
  assert (Hreg : df_seen (deduper worker_after_order_1) !! order_1_id = Some 0)
    by (vm_compute; reflexivity).
  split; [exact Hwf|]. split; [exact Hreg|].
  destruct (@duplicate_delivery_only_counts sample_runtime sample_env "orders" (Some [Byte.x31])
              None [] order_1_id 0 [(10, 10); (30, 30)] worker_after_order_1
              eq_refl eq_refl Hwf Hreg) as [(ws' & Hrun & Hd & _ & _ & _ & Ho & _) _].
  { intros t [<-|[<-|[]]]; vm_compute; discriminate. }
  exists ws'. split; [exact Hrun|]. split; [rewrite Hd; reflexivity|]. rewrite Ho. reflexivity.
Defined.

(** ** Event identity *)

(** C8: [_event_id] is a function of the topic, the transport key and the
    message body only: two deliveries (at any partitions or offsets) with
    the same topic, key and body get the same identity. Hence, once the
    first of them was recorded at [t1], handling the second at any [t2]
    with [t2 - ttl <= t1] only records a duplicate. *)
Theorem redelivery_same_identity {L : PyLib} (env : Env) (m1 m2 : Message)
    (Htopic : msg_topic m1 = msg_topic m2) (Hkey : msg_key m1 = msg_key m2)
    (Hvalue : msg_value m1 = msg_value m2) :
  delivery_event_id m1 = delivery_event_id m2 /\
  forall ws ws1 fields event_id t1 t1' t2 t2',
    df_wf (deduper ws) ->
    _decode_payload (msg_value m1) = Some (JObj fields) ->
    _event_id (msg_topic m1) (msg_key m1) (JObj fields) = Ok event_id ->
    df_seen (df_evict t1 (deduper ws)) !! event_id = None ->
    t2 - df_ttl (deduper ws) <= t1 ->
    _handle_message env t1 t1' (msg_topic m1) (msg_key m1) (msg_value m1) ws = Ok ws1 ->
    _handle_message env t2 t2' (msg_topic m2) (msg_key m2) (msg_value m2) ws1 =
      Ok {| metrics := record_duplicate (metrics ws1); deduper := df_evict t2 (deduper ws1);
            commits := commits ws1 |}.
Proof.
  split.
  - unfold delivery_event_id. rewrite Htopic, Hkey, Hvalue. reflexivity.
  - intros ws ws1 fields event_id t1 t1' t2 t2' Hwf Hdec Hid Hnew Ht2 Hh1.
    destruct (FirstDelivery.handle_first env t1 t1' _ _ _ fields event_id ws Hdec Hid Hnew)
      as (ws1' & Hh1' & Hdd & _).
    rewrite Hh1 in Hh1'. injection Hh1' as <-.
    rewrite <- Htopic, <- Hkey, <- Hvalue.
    apply (DuplicateDelivery.handle_duplicate env t2 t2' _ _ _ fields event_id ws1 t1 Hdec Hid).
    + rewrite Hdd. apply DuplicateDelivery.register_wf, Hwf.
    + rewrite Hdd, (DuplicateDelivery.register_records t1 event_id (deduper ws) Hnew).
      simpl. apply lookup_insert_eq.
    + rewrite Hdd, DuplicateFilterFacts.register_ttl. exact Ht2.
Qed.

Lemma redelivery_same_identity_witness :
  @delivery_event_id sample_runtime (order_1_message 5) =
    @delivery_event_id sample_runtime (order_1_message 9) /\
  @delivery_event_id sample_runtime (order_1_message 5) = Some (Ok order_1_id).
Proof.
  split; [|reflexivity].
  exact (proj1 (@redelivery_same_identity sample_runtime sample_env
                  (order_1_message 5) (order_1_message 9) eq_refl eq_refl eq_refl)).
Defined.

(** ** Order identifiers *)

(** C9: a first delivery on the order topic increments [orders] and tracks
    [_resolve_order_id(key, payload)] in the order window (nothing else
    changes): this is [str(payload["order_id"])] when the field is present,
    else the key decoded as text when that is non-empty; when both are
    absent, or the key decodes to the empty string, the window is left
    unchanged, so the order never counts in [orders_per_min]. *)
Theorem order_message_identifier {L : PyLib} (env : Env) (t_reg t_rec : Q) (msg : Message)
    (fields : list (string * json)) (event_id : string) (ws : WorkerState)
    (Htopic : msg_topic msg = ORDER_TOPIC env)
    (Hdec : _decode_payload (msg_value msg) = Some (JObj fields))
    (Hid : _event_id (msg_topic msg) (msg_key msg) (JObj fields) = Ok event_id)
    (Hnew : df_seen (df_evict t_reg (deduper ws)) !! event_id = None) :
  exists ws', _handle_message env t_reg t_rec (msg_topic msg) (msg_key msg) (msg_value msg) ws = Ok ws' /\
    stat_orders (metrics ws') = (stat_orders (metrics ws) + 1)%Z /\
    stat_inventory (metrics ws') = stat_inventory (metrics ws) /\
    stat_duplicates (metrics ws') = stat_duplicates (metrics ws) /\
    failure_window (metrics ws') = failure_window (metrics ws) /\
    order_window (metrics ws') =
      uw_track (_resolve_order_id (msg_key msg) fields) t_rec (order_window (metrics ws)) /\
    (forall v, py_dict_get "order_id" fields = Some v ->
               _resolve_order_id (msg_key msg) fields = Some (py_str v)) /\
    (forall k, py_dict_get "order_id" fields = None -> msg_key msg = Some k ->
               utf8_decode_ignore k <> "" ->
               _resolve_order_id (msg_key msg) fields = Some (utf8_decode_ignore k)) /\
    (py_dict_get "order_id" fields = None ->
     (msg_key msg = None \/ exists k, msg_key msg = Some k /\ utf8_decode_ignore k = "") ->
     order_window (metrics ws') = order_window (metrics ws)).
Proof.
  destruct (FirstDelivery.handle_first env t_reg t_rec _ _ _ fields event_id ws Hdec Hid Hnew)
    as (ws' & Hh & _ & Hm).
  rewrite Htopic, String.eqb_refl in Hm.
  exists ws'. split; [exact Hh|].
  rewrite Hm. simpl.
  split; [reflexivity|]. split; [reflexivity|]. split; [reflexivity|]. split; [reflexivity|].
  split; [reflexivity|].
  split; [intros v Hv; unfold _resolve_order_id; rewrite Hv; reflexivity|].
  split.
  - intros k Hnone Hk Hne. unfold _resolve_order_id. rewrite Hnone, Hk.
    destruct (String.eqb_spec (utf8_decode_ignore k) ""); [contradiction|reflexivity].
  - intros Hnone Hkey. unfold _resolve_order_id. rewrite Hnone.
    destruct Hkey as [-> | (k & -> & Hk)]; [reflexivity|].
    rewrite Hk. reflexivity.
Qed.

Lemma order_message_identifier_witness :
  exists ws', @_handle_message sample_runtime sample_env 0 0 "orders" None None fresh_worker = Ok ws' /\
              stat_orders (metrics ws') = 1%Z /\
              order_window (metrics ws') = order_window (metrics fresh_worker).
Proof.
  set (m := {| msg_topic := "orders"; msg_partition := 0; msg_offset := 0;
               msg_key := None; msg_value := None |}).
  destruct (@order_message_identifier sample_runtime sample_env 0 0 m [] "orders:na:digest"
              fresh_worker eq_refl eq_refl eq_refl eq_refl)
    as (ws' & Hh & Ho & _ & _ & _ & _ & _ & _ & Hnone).
  exists ws'. split; [exact Hh|]. split; [rewrite Ho; reflexivity|].
  apply Hnone; [reflexivity|left; reflexivity].
Defined.

(** ** Snapshot consistency *)

Module SnapshotFacts.
Import DuplicateFilterFacts.

Lemma fw_evict_loop_stops cutoff f ev :
  snd (fw_evict_loop cutoff f ev) = [] \/
  exists x rest, snd (fw_evict_loop cutoff f ev) = x :: rest /\ cutoff <= fst x.
Proof.
  revert f. induction ev as [|[ts b] rest IH]; intros f; simpl; [left; reflexivity|].
  destruct (Qltb ts cutoff) eqn:Hlt; [apply IH|].
  right. apply Qltb_false in Hlt. exists (ts, b), rest. split; [reflexivity|exact Hlt].
Qed.

(** Evicting twice at the same clock reading is evicting once. *)
Lemma fw_evict_idem now fw : fw_evict now (fw_evict now fw) = fw_evict now fw.
Proof.
  unfold fw_evict.
  pose proof (fw_evict_loop_stops (now - fw_window fw) (fw_failures fw) (fw_events fw)) as Hs.
  destruct (fw_evict_loop (now - fw_window fw) (fw_failures fw) (fw_events fw)) as [f ev].
  simpl in *. destruct Hs as [->|([ts b] & rest & -> & Hle)]; [reflexivity|].
  simpl in Hle. simpl.
  destruct (Qltb ts (now - fw_window fw)) eqn:Hlt; [|reflexivity].
  apply Qltb_true in Hlt. exfalso. lra.
Qed.

(** With one clock reading for both [totals()] calls, the snapshot's rate
    agrees with its own counts. *)
Lemma snapshot_rate_same_clock t tb td m s m' :
  snapshot t tb t td m = Ok (s, m') ->
  ((0 < inventory_events s)%Z ->
     snap_failure_rate_pct s == 100 * inject_Z (failures s) / inject_Z (inventory_events s)) /\
  (inventory_events s = 0%Z -> snap_failure_rate_pct s = 0).
Proof.
  unfold snapshot, totals.
  destruct (per_minute tb (order_window m)) as [[opm ow1]|e]; simpl; [|discriminate].
  unfold failure_rate_pct, totals. rewrite fw_evict_idem.
  set (n := Z.of_nat (length (fw_events (fw_evict t (failure_window m))))).
  set (f := fw_failures (fw_evict t (failure_window m))).
  destruct (Z.eqb_spec n 0) as [Hz|Hz].
  - simpl. intros H. injection H as <- _. simpl. split; [lia|reflexivity].
  - unfold py_truediv. destruct (Qeq_bool (inject_Z n) 0) eqn:Hq; simpl; [discriminate|].
    intros H. injection H as <- _. simpl. split; [|lia].
    intros _. field. intros Hn. apply Hz. apply inject_Z_injective. exact Hn.
Qed.

End SnapshotFacts.

(** C2 fails at the boundary of the window: [snapshot()] reads the clock
    once for [inventory_events]/[failures] and again inside
    [failure_rate_pct()]. A failure tracked at [0] in a 60 s window is
    still live at the first reading [60] and expired at the second reading
    [61]: the snapshot reports [inventory_events = 1], [failures = 1] and
    [failure_rate_pct = 0]. *)
Lemma snapshot_failure_rate_counterexample :
  ~ (forall (ta tb tc td : Q) (m : MetricsAggregator) (s : Snapshot) (m' : MetricsAggregator),
       ta <= tb -> tb <= tc -> tc <= td ->
       snapshot ta tb tc td m = Ok (s, m') ->
       (0 < inventory_events s)%Z ->
       snap_failure_rate_pct s == 100 * inject_Z (failures s) / inject_Z (inventory_events s)).
Proof.
  intros Hclaim.
  set (m := record_inventory true 0 (new_MetricsAggregator 60)).
  destruct (snapshot 60 60 61 61 m) as [[s m']|e] eqn:Hs; [|vm_compute in Hs; discriminate].
  assert (Hv : inventory_events s = 1%Z /\ failures s = 1%Z /\ snap_failure_rate_pct s = 0).
  { vm_compute in Hs. injection Hs as <- _. split; [reflexivity|]. split; reflexivity. }
  destruct Hv as (Hi & Hf & Hr).
  assert (H := Hclaim 60 60 61 61 m s m').
  rewrite Hi, Hf, Hr in H.
  assert (Hneq : ~ (0 == 100 * inject_Z 1 / inject_Z 1)) by (vm_compute; discriminate).
  apply Hneq, H.
  - apply Qle_refl.
  - vm_compute; discriminate.
  - apply Qle_refl.
  - exact Hs.
  - lia.
Qed.

(** ** The [run()] loop *)

Module RunLoopFacts.

(** [_handle_message] never commits, and it raises only [AttributeError],
    only on a payload that decodes to something other than a dict. *)
Lemma handle_message_cases {L : PyLib} env t_reg t_rec topic key value ws :
  match _handle_message env t_reg t_rec topic key value ws with
  | Ok ws' => commits ws' = commits ws
  | Raise e => e = AttributeError /\
               exists v, _decode_payload value = Some v /\ forall f, v <> JObj f
  end.
Proof.
  unfold _handle_message.
  destruct (_decode_payload value) as [v|]; [|reflexivity].
  destruct v as [| | | | |fields];
    try (split; [reflexivity|eexists; split; [reflexivity|intros f; discriminate]]).
  unfold _event_id, mbind, res_bind, mret, res_ret. cbv beta iota.
  lazymatch goal with
  | |- context [register ?t ?i ?df] => destruct (register t i df) as [[] df']; [reflexivity|]
  end.
  destruct (String.eqb topic (ORDER_TOPIC env)); [reflexivity|].
  destruct (String.eqb topic (INVENTORY_TOPIC env)); reflexivity.
Qed.

Lemma handle_message_non_object {L : PyLib} env t_reg t_rec topic key value ws v :
  _decode_payload value = Some v -> (forall f, v <> JObj f) ->
  _handle_message env t_reg t_rec topic key value ws = Raise AttributeError.
Proof.
  intros Hd Hv. unfold _handle_message. rewrite Hd.
  destruct v as [| | | | |fields]; try reflexivity.
  exfalso. exact (Hv fields eq_refl).
Qed.

(** The messages one poll result adds to the commit log. *)
Lemma run_step_cases {L : PyLib} env t_reg t_rec polled ws :
  match run_step env t_reg t_rec polled ws with
  | Ok ws' => commits ws' = commits ws ++ polled_messages [(t_reg, t_rec, polled)]
  | Raise e =>
      (exists c, polled = PollError (OtherKafkaError c) /\ e = KafkaException c) \/
      (exists msg v, polled = PollMessage msg /\ e = AttributeError /\
                     _decode_payload (msg_value msg) = Some v /\ forall f, v <> JObj f)
  end.
Proof.
  destruct polled as [|[| |c]|msg]; simpl; try (rewrite app_nil_r; reflexivity).
  - left. exists c. split; reflexivity.
  - pose proof (handle_message_cases env t_reg t_rec (msg_topic msg) (msg_key msg)
                  (msg_value msg) ws) as Hc.
    destruct (_handle_message env t_reg t_rec _ _ _ ws) as [ws'|e]; simpl.
    + rewrite Hc. reflexivity.
    + destruct Hc as [-> (v & Hv & Hnot)]. right. exists msg, v. auto.
Qed.

Lemma polled_messages_app polls polls' :
  polled_messages (polls ++ polls') = polled_messages polls ++ polled_messages polls'.
Proof.
  induction polls as [|[[t t'] p] rest IH]; simpl; [reflexivity|].
  destruct p; rewrite IH; reflexivity.
Qed.

Lemma polled_messages_cons t t' p rest :
  polled_messages ((t, t', p) :: rest) = polled_messages [(t, t', p)] ++ polled_messages rest.
Proof. destruct p; reflexivity. Qed.

End RunLoopFacts.

(** [run()] commits every message it polls once [_handle_message] has
    returned for it, in poll order, and nothing else: when the loop ends
    without an exception, the commit log has grown by exactly the polled
    messages, corrupt or duplicate ones included. *)
Theorem run_loop_commits_polled {L : PyLib} (env : Env) (polls : list (Q * Q * PollResult))
    (ws ws' : WorkerState) (Hrun : run_loop env polls ws = (ws', None)) :
  commits ws' = commits ws ++ polled_messages polls.
Proof.
  revert ws Hrun. induction polls as [|[[t_reg t_rec] p] rest IH]; intros ws Hrun; simpl in Hrun.
  - injection Hrun as <-. rewrite app_nil_r. reflexivity.
  - pose proof (RunLoopFacts.run_step_cases env t_reg t_rec p ws) as Hc.
    destruct (run_step env t_reg t_rec p ws) as [ws1|e]; [|discriminate].
    rewrite (IH ws1 Hrun), Hc, (RunLoopFacts.polled_messages_cons t_reg t_rec p rest), app_assoc. reflexivity.
Qed.

Lemma run_loop_commits_polled_witness :
  @run_loop sample_runtime sample_env [(0, 0, PollMessage (order_1_message 1)); (1, 1, PollNone);
                                       (2, 2, PollMessage (order_1_message 2))] fresh_worker =
    (fst (@run_loop sample_runtime sample_env
            [(0, 0, PollMessage (order_1_message 1)); (1, 1, PollNone);
             (2, 2, PollMessage (order_1_message 2))] fresh_worker), None) /\
  commits (fst (@run_loop sample_runtime sample_env
                 [(0, 0, PollMessage (order_1_message 1)); (1, 1, PollNone);
                  (2, 2, PollMessage (order_1_message 2))] fresh_worker)) =
    [order_1_message 1; order_1_message 2].
Proof.
  assert (Hrun : @run_loop sample_runtime sample_env
                   [(0, 0, PollMessage (order_1_message 1)); (1, 1, PollNone);
                    (2, 2, PollMessage (order_1_message 2))] fresh_worker =
                 (fst (@run_loop sample_runtime sample_env
                         [(0, 0, PollMessage (order_1_message 1)); (1, 1, PollNone);
                          (2, 2, PollMessage (order_1_message 2))] fresh_worker), None))
    by (vm_compute; reflexivity).
  split; [exact Hrun|].
  exact (@run_loop_commits_polled sample_runtime sample_env _ fresh_worker _ Hrun).
Defined.




(** ** Which events [totals()] counts *)

Module FailureWindowHistory.
Import FailureWindowFacts.

Definition tsb_le (x y : Q * bool) : Prop := fst x <= fst y.

Definition recent (c : Q) (ev : list (Q * bool)) : list (Q * bool) :=
  List.filter (fun x => Qle_bool c (fst x)) ev.

Lemma StronglySorted_filter {A} (R : A -> A -> Prop) (f : A -> bool) l :
  StronglySorted R l -> StronglySorted R (List.filter f l).
Proof.
  induction l as [|x l IH]; simpl; intros Hs; [constructor|].
  apply StronglySorted_inv in Hs as [Hs Hx].
  destruct (f x); [|auto].
  constructor; [auto|].
  rewrite List.Forall_forall in Hx |- *. intros y Hy. apply filter_In in Hy as [Hy _]. auto.
Qed.

Lemma recent_all c ev :
  Forall (fun x => c <= fst x) ev -> recent c ev = ev.
Proof.
  induction ev as [|x ev IH]; simpl; intros Hf; [reflexivity|].
  apply Forall_cons_iff in Hf as [Hx Hf].
  apply Qle_bool_iff in Hx. rewrite Hx, IH by exact Hf. reflexivity.
Qed.

(** On a time-ordered deque the eviction loop keeps exactly the entries at
    or after the cutoff. *)
Lemma fw_evict_loop_recent cutoff f ev :
  StronglySorted tsb_le ev -> snd (fw_evict_loop cutoff f ev) = recent cutoff ev.
Proof.
  revert f. induction ev as [|[ts b] rest IH]; intros f Hs; simpl; [reflexivity|].
  apply StronglySorted_inv in Hs as [Hs Hall].
  destruct (Qltb ts cutoff) eqn:Hlt.
  - apply DuplicateFilterFacts.Qltb_true in Hlt.
    assert (Qle_bool cutoff ts = false) as ->.
    { destruct (Qle_bool cutoff ts) eqn:E; [|reflexivity].
      apply Qle_bool_iff in E. exfalso. lra. }
    apply IH, Hs.
  - apply DuplicateFilterFacts.Qltb_false in Hlt. simpl.
    assert (Qle_bool cutoff ts = true) as -> by (apply Qle_bool_iff; exact Hlt).
    rewrite recent_all; [reflexivity|].
    eapply Forall_impl; [exact Hall|]. intros x Hx. unfold tsb_le in Hx. simpl in Hx. lra.
Qed.

Lemma recent_recent c c' ev : c <= c' -> recent c' (recent c ev) = recent c' ev.
Proof.
  intros Hc. induction ev as [|[ts b] ev IH]; simpl; [reflexivity|].
  destruct (Qle_bool c ts) eqn:E1; destruct (Qle_bool c' ts) eqn:E2; simpl; rewrite ?E2, ?IH;
    try reflexivity.
  apply Qle_bool_iff in E2. assert (Qle_bool c ts = true) by (apply Qle_bool_iff; lra).
  congruence.
Qed.

Lemma recent_app c ev ev' : recent c (ev ++ ev') = recent c ev ++ recent c ev'.
Proof. unfold recent. apply List.filter_app. Qed.

Lemma fw_tracked_app calls calls' :
  fw_tracked (calls ++ calls') = fw_tracked calls ++ fw_tracked calls'.
Proof.
  induction calls as [|[t c] rest IH]; simpl; [reflexivity|]. destruct c; rewrite ?IH; reflexivity.
Qed.

(** The window against the [track] calls [hist] it received: its deque is
    what a cutoff [c] at most [T - window] keeps of them. *)
Record fw_hist (fw : FailureWindow) (hist : list (Q * bool)) (T : Q) : Prop := {
  fh_window : 1 <= fw_window fw;
  fh_sorted : StronglySorted tsb_le hist;
  fh_past : forall x, In x hist -> fst x <= T;
  fh_events : exists c, c <= T - fw_window fw /\ fw_events fw = recent c hist
}.

Lemma fw_hist_evict fw hist T now :
  fw_hist fw hist T -> T <= now ->
  fw_events (fw_evict now fw) = recent (now - fw_window fw) hist /\
  fw_hist (fw_evict now fw) hist now.
Proof.
  intros [Hw Hs Hp (c & Hc & Hev)] Hle.
  assert (Hrec : fw_events (fw_evict now fw) = recent (now - fw_window fw) hist).
  { unfold fw_evict.
    pose proof (fw_evict_loop_recent (now - fw_window fw) (fw_failures fw) (fw_events fw)) as H.
    destruct (fw_evict_loop _ _ _) as [f ev]. simpl in *.
    rewrite H, Hev, recent_recent; [reflexivity|lra|].
    rewrite Hev. apply StronglySorted_filter, Hs. }
  split; [exact Hrec|].
  constructor; rewrite ?fw_evict_window.
  - exact Hw.
  - exact Hs.
  - intros x Hx. pose proof (Hp x Hx). lra.
  - exists (now - fw_window fw). split; [lra|exact Hrec].
Qed.

Lemma fw_hist_apply fw hist T now c :
  fw_hist fw hist T -> T <= now ->
  fw_hist (fw_apply fw (now, c)) (hist ++ fw_tracked [(now, c)]) now.
Proof.
  intros Hh Hle. destruct c as [b| |]; simpl.
  - destruct Hh as [Hw Hs Hp (c & Hc & Hev)].
    assert (Hs' : StronglySorted tsb_le (hist ++ [(now, b)])).
    { apply DuplicateFilterFacts.StronglySorted_snoc; [exact Hs|].
      intros y Hy. unfold tsb_le. simpl. pose proof (Hp y Hy). lra. }
    set (fw0 := {| fw_window := fw_window fw; fw_events := fw_events fw ++ [(now, b)];
                   fw_failures := if b then (fw_failures fw + 1)%Z else fw_failures fw |}).
    assert (Hh0 : fw_hist fw0 (hist ++ [(now, b)]) now).
    { constructor; simpl.
      - exact Hw.
      - exact Hs'.
      - intros x Hx. apply in_app_or in Hx as [Hx|[<-|[]]]; [pose proof (Hp x Hx); lra|apply Qle_refl].
      - exists c. split; [lra|].
        rewrite Hev, recent_app. simpl.
        assert (Qle_bool c now = true) as -> by (apply Qle_bool_iff; lra). reflexivity. }
    exact (proj2 (fw_hist_evict fw0 _ now now Hh0 (Qle_refl now))).
  - rewrite app_nil_r. exact (proj2 (fw_hist_evict fw hist T now Hh Hle)).
  - rewrite app_nil_r. destruct (failure_rate_pct_ok now fw) as [q ->].
    exact (proj2 (fw_hist_evict fw hist T now Hh Hle)).
Qed.

Lemma fw_hist_run calls : forall fw hist T now,
  fw_hist fw hist T -> clock_from T calls now ->
  exists T', T' <= now /\ fw_hist (fw_run calls fw) (hist ++ fw_tracked calls) T'.
Proof.
  unfold fw_run.
  induction calls as [|[t c] rest IH]; intros fw hist T now Hh Hclock; simpl.
  - exists T. rewrite app_nil_r. split; assumption.
  - destruct Hclock as [HT Hrest].
    pose proof (fw_hist_apply fw hist T t c Hh HT) as Hh'.
    destruct (IH _ _ _ _ Hh' Hrest) as (T' & HT' & Hfin).
    exists T'. split; [exact HT'|].
    rewrite <- app_assoc in Hfin. simpl in Hfin. destruct c; exact Hfin.
Qed.

Lemma fw_hist_new W T : fw_hist (new_FailureWindow W) [] T.
Proof.
  constructor; simpl.
  - apply WindowSize.py_max_ge_1.
  - constructor.
  - intros x [].
  - exists (T - py_max W 1). split; [apply Qle_refl|reflexivity].
Qed.

End FailureWindowHistory.

(** Along any calls of [track], [totals] and [failure_rate_pct] on
    [FailureWindow(W)] whose clock never goes backwards, [totals()] at [now]
    returns the number of [track] calls made at a time [t] with
    [now - max(W, 1) <= t], and the number of those that tracked a
    failure. *)
Theorem totals_counts_recent_tracks (W T0 now : Q) (calls : list (Q * fw_call))
    (Hclock : clock_from T0 calls now) :
  fst (totals now (fw_run calls (new_FailureWindow W))) =
    (Z.of_nat (length (FailureWindowHistory.recent (now - py_max W 1) (fw_tracked calls))),
     count_failures (FailureWindowHistory.recent (now - py_max W 1) (fw_tracked calls))).
Proof.
  destruct (FailureWindowHistory.fw_hist_run calls (new_FailureWindow W) [] T0 now
              (FailureWindowHistory.fw_hist_new W T0) Hclock) as (T' & HT' & Hh).
  simpl in Hh.
  destruct (FailureWindowHistory.fw_hist_evict _ _ _ now Hh HT') as [Hrec _].
  rewrite FailureWindowFacts.fw_run_window in Hrec. simpl in Hrec.
  assert (Hinv : FailureWindowFacts.fw_inv (fw_evict now (fw_run calls (new_FailureWindow W)))).
  { apply FailureWindowFacts.fw_evict_inv, FailureWindowFacts.fw_run_inv. reflexivity. }
  unfold FailureWindowFacts.fw_inv in Hinv.
  unfold totals. simpl. rewrite Hinv, Hrec. reflexivity.
Qed.

Lemma totals_counts_recent_tracks_witness :
  clock_from 0 [(0, FwTrack true); (30, FwTrack false); (70, FwTotals)] 80 /\
  fst (totals 80 (fw_run [(0, FwTrack true); (30, FwTrack false); (70, FwTotals)]
                         (new_FailureWindow 60))) = (1%Z, 0%Z).
Proof.
  assert (Hc : clock_from 0 [(0, FwTrack true); (30, FwTrack false); (70, FwTotals)] 80)
    by (simpl; repeat split; vm_compute; discriminate).
  split; [exact Hc|].
  rewrite (totals_counts_recent_tracks 60 0 80 _ Hc). vm_compute. reflexivity.
Defined.

(** ** Snapshots of an aggregator *)

Module AggregatorFacts.
Import FailureWindowFacts.

Lemma uw_evict_loop_stops cutoff e o :
  snd (uw_evict_loop cutoff e o) = [] \/
  exists x rest, snd (uw_evict_loop cutoff e o) = x :: rest /\ cutoff <= fst x.
Proof.
  revert e. induction o as [|[ts k] rest IH]; intros e; simpl; [left; reflexivity|].
  destruct (Qltb ts cutoff) eqn:Hlt; [apply IH|].
  right. apply DuplicateFilterFacts.Qltb_false in Hlt. exists (ts, k), rest. split; [reflexivity|exact Hlt].
Qed.

(** Evicting twice at the same clock reading is evicting once. *)
Lemma uw_evict_idem now w : uw_evict now (uw_evict now w) = uw_evict now w.
Proof.
  unfold uw_evict.
  pose proof (uw_evict_loop_stops (now - uw_window w) (uw_entries w) (uw_order w)) as Hs.
  destruct (uw_evict_loop (now - uw_window w) (uw_entries w) (uw_order w)) as [e o].
  simpl in *. destruct Hs as [->|([ts k] & rest & -> & Hle)]; [reflexivity|].
  simpl in Hle. simpl.
  destruct (Qltb ts (now - uw_window w)) eqn:Hlt; [|reflexivity].
  apply DuplicateFilterFacts.Qltb_true in Hlt. exfalso. lra.
Qed.

Lemma per_minute_evict now w : per_minute now (uw_evict now w) = per_minute now w.
Proof. unfold per_minute. rewrite uw_evict_idem, WindowSize.uw_evict_window. reflexivity. Qed.

Lemma totals_evict now fw : totals now (fw_evict now fw) = totals now fw.
Proof. unfold totals. rewrite SnapshotFacts.fw_evict_idem. reflexivity. Qed.

(** [failure_rate_pct] on a consistent window gives a percentage. *)
Lemma failure_rate_pct_bounds now fw :
  fw_inv fw -> exists q, failure_rate_pct now fw = Ok (q, fw_evict now fw) /\ 0 <= q <= 100.
Proof.
  intros Hinv. pose proof (fw_evict_inv now fw Hinv) as Hinv'. unfold fw_inv in Hinv'.
  pose proof (count_failures_nonneg (fw_events (fw_evict now fw))).
  pose proof (count_failures_le_length (fw_events (fw_evict now fw))).
  unfold failure_rate_pct, totals.
  destruct (Z.eqb_spec (Z.of_nat (length (fw_events (fw_evict now fw)))) 0) as [Hz|Hz].
  - exists 0. split; [reflexivity|]. split; lra.
  - unfold py_truediv. destruct (Qeq_bool _ _) eqn:Hq.
    + apply Qeq_bool_iff in Hq. unfold Qeq in Hq. simpl in Hq. lia.
    + eexists. split; [reflexivity|]. apply pct_bounds; lia.
Qed.

(** What [snapshot()] returns and leaves on an aggregator whose order
    window is not empty-sized and whose failure counter is consistent. *)
Lemma snapshot_ok ta tb tc td m :
  1 <= uw_window (order_window m) -> fw_inv (failure_window m) ->
  exists s, snapshot ta tb tc td m =
    Ok (s, {| order_window := uw_evict tb (order_window m);
              failure_window := fw_evict tc (fw_evict ta (failure_window m));
              window_seconds := window_seconds m;
              stat_orders := stat_orders m; stat_inventory := stat_inventory m;
              stat_duplicates := stat_duplicates m |}) /\
    inventory_events s = Z.of_nat (length (fw_events (fw_evict ta (failure_window m)))) /\
    failures s = fw_failures (fw_evict ta (failure_window m)) /\
    orders_per_min s = inject_Z (uw_len (uw_evict tb (order_window m))) * 60 / uw_window (order_window m) /\
    0 <= snap_failure_rate_pct s <= 100 /\
    snap_window_seconds s = window_seconds m /\ generated_at s = td.
Proof.
  intros Hw Hinv.
  pose proof (fw_evict_inv ta _ Hinv) as Hinv1.
  destruct (failure_rate_pct_bounds tc _ Hinv1) as (q & Hq & Hqb).
  unfold snapshot, totals at 1.
  unfold per_minute at 1. unfold py_truediv at 1.
  rewrite WindowSize.uw_evict_window.
  destruct (Qeq_bool (uw_window (order_window m)) 0) eqn:Hz.
  { apply Qeq_bool_iff in Hz. exfalso. rewrite Hz in Hw. apply Hw. reflexivity. }
  unfold mbind, res_bind, mret, res_ret. cbv beta iota.
  rewrite Hq. cbv beta iota.
  eexists. split; [reflexivity|]. simpl. repeat split; try reflexivity; apply Hqb.
Qed.

Definition agg_inv (W : Q) (m : MetricsAggregator) : Prop :=
  uw_window (order_window m) = py_max W 1 /\ fw_inv (failure_window m) /\
  window_seconds m = py_int W.

Lemma agg_apply_inv W m c : agg_inv W m -> agg_inv W (agg_apply m c).
Proof.
  intros (Hw & Hinv & Hs). destruct c as [now [o|b| |tb tc td]]; simpl;
    unfold record_order, record_inventory, record_duplicate, agg_inv; simpl.
  - split; [rewrite WindowSize.uw_track_window; exact Hw|]. split; assumption.
  - split; [exact Hw|]. split; [apply fw_track_inv, Hinv|exact Hs].
  - split; [exact Hw|]. split; assumption.
  - assert (Hge : 1 <= uw_window (order_window m)) by (rewrite Hw; apply WindowSize.py_max_ge_1).
    destruct (snapshot_ok now tb tc td m Hge Hinv) as (s & -> & _).
    split; [simpl; rewrite WindowSize.uw_evict_window; exact Hw|].
    split; [simpl; apply fw_evict_inv, fw_evict_inv, Hinv|exact Hs].
Qed.

Lemma agg_run_inv W calls m : agg_inv W m -> agg_inv W (agg_run calls m).
Proof.
  unfold agg_run. revert m. induction calls as [|c calls IH]; intros m Hm; simpl; [exact Hm|].
  apply IH, agg_apply_inv, Hm.
Qed.

Lemma agg_inv_new W : agg_inv W (new_MetricsAggregator W).
Proof. split; [reflexivity|]. split; reflexivity. Qed.

End AggregatorFacts.

(** For every aggregator reached from [MetricsAggregator(W)] by any calls
    of [record_order], [record_inventory], [record_duplicate] and
    [snapshot()], at any clock readings, [snapshot()] never raises, and its
    dict has [0 <= failures <= inventory_events],
    [0 <= failure_rate_pct <= 100], [orders_per_min >= 0] and
    [window_seconds = int(W)]. *)
Theorem snapshot_never_raises (W : Q) (calls : list (Q * agg_call)) (ta tb tc td : Q) :
  exists s m', snapshot ta tb tc td (agg_run calls (new_MetricsAggregator W)) = Ok (s, m') /\
    (0 <= failures s <= inventory_events s)%Z /\
    0 <= snap_failure_rate_pct s <= 100 /\
    0 <= orders_per_min s /\
    snap_window_seconds s = py_int W /\ generated_at s = td.
Proof.
  destruct (AggregatorFacts.agg_run_inv W calls _ (AggregatorFacts.agg_inv_new W))
    as (Hw & Hinv & Hs).
  set (m := agg_run calls (new_MetricsAggregator W)) in *.
  assert (Hge : 1 <= uw_window (order_window m)) by (rewrite Hw; apply WindowSize.py_max_ge_1).
  destruct (AggregatorFacts.snapshot_ok ta tb tc td m Hge Hinv)
    as (s & Hsnap & Hie & Hf & Hopm & Hr & Hws & Hgen).
  exists s. eexists. split; [exact Hsnap|].
  pose proof (FailureWindowFacts.fw_evict_inv ta _ Hinv) as Hinv1.
  unfold FailureWindowFacts.fw_inv in Hinv1.
  pose proof (FailureWindowFacts.count_failures_nonneg (fw_events (fw_evict ta (failure_window m)))).
  pose proof (FailureWindowFacts.count_failures_le_length (fw_events (fw_evict ta (failure_window m)))).
  split; [rewrite Hie, Hf; lia|]. split; [exact Hr|].
  split; [|split; [rewrite Hws; exact Hs|exact Hgen]].
  rewrite Hopm.
  assert (0 <= inject_Z (uw_len (uw_evict tb (order_window m)))).
  { change 0 with (inject_Z 0). rewrite <- Zle_Qle. unfold uw_len. lia. }
  apply Qle_shift_div_l; [lra|]. rewrite Qmult_0_l. lra.
Qed.

(** A snapshot taken with both [totals()] calls at one clock reading leaves
    the aggregator in a state where a second snapshot at the same readings
    returns the same dict and leaves the same state: reading [/metrics]
    again at the same instant changes nothing. *)
Theorem snapshot_repeat_same_clock (t tb td : Q) (m m' : MetricsAggregator) (s : Snapshot)
    (Hsnap : snapshot t tb t td m = Ok (s, m')) :
  snapshot t tb t td m' = Ok (s, m').
Proof.
  revert Hsnap. unfold snapshot.
  destruct (totals t (failure_window m)) as [[iv fl] fw1] eqn:Ht.
  destruct (per_minute tb (order_window m)) as [[opm ow1]|e] eqn:Hp; [|discriminate].
  destruct (failure_rate_pct t fw1) as [[rate fw2]|e] eqn:Hr; [|discriminate].
  intros H. injection H as <- <-.
  cbn [failure_window order_window window_seconds stat_orders stat_inventory stat_duplicates].
  assert (Hfw1 : fw1 = fw_evict t (failure_window m)) by (unfold totals in Ht; congruence).
  assert (Hfw2 : fw2 = fw_evict t fw1)
    by (apply (FailureWindowFacts.failure_rate_pct_state t fw1 rate fw2 Hr)).
  assert (How1 : ow1 = uw_evict tb (order_window m)).
  { unfold per_minute, mbind, res_bind, mret, res_ret in Hp. cbv zeta in Hp.
    destruct (py_truediv _ _); [injection Hp as _ <-; reflexivity|discriminate]. }
  subst fw1. rewrite SnapshotFacts.fw_evict_idem in Hfw2. subst fw2 ow1.
  rewrite AggregatorFacts.totals_evict, Ht. cbv beta iota.
  rewrite AggregatorFacts.per_minute_evict, Hp.
  unfold mbind, res_bind, mret, res_ret. cbv beta iota.
  rewrite Hr. reflexivity.
Qed.

Lemma snapshot_repeat_same_clock_witness :
  exists s m',
    snapshot 30 30 30 31 (record_inventory true 0 (record_order (Some "A") 0 (new_MetricsAggregator 60)))
      = Ok (s, m') /\
    snapshot 30 30 30 31 m' = Ok (s, m').
Proof.
  destruct (snapshot 30 30 30 31
              (record_inventory true 0 (record_order (Some "A") 0 (new_MetricsAggregator 60))))
    as [[s m']|e] eqn:E; [|vm_compute in E; discriminate].
  exists s, m'. split; [reflexivity|].
  exact (snapshot_repeat_same_clock 30 30 31 _ m' s E).
Defined.

(** [snapshot()] never reads the [stats] counters and never changes them:
    the counts of [orders], [inventory] and [duplicates] reach neither the
    [/metrics] endpoint nor the periodic report. *)
Theorem snapshot_ignores_stats (ta tb tc td : Q) (m : MetricsAggregator) (o i d : Z) :
  snapshot_value ta tb tc td
    {| order_window := order_window m; failure_window := failure_window m;
       window_seconds := window_seconds m;
       stat_orders := o; stat_inventory := i; stat_duplicates := d |} =
  snapshot_value ta tb tc td m /\
  match snapshot ta tb tc td m with
  | Ok (_, m') => stat_orders m' = stat_orders m /\ stat_inventory m' = stat_inventory m /\
                  stat_duplicates m' = stat_duplicates m
  | Raise _ => True
  end.
Proof.
  split; [apply DuplicateDelivery.snapshot_value_frame; reflexivity|].
  unfold snapshot.
  destruct (totals ta (failure_window m)) as [[iv fl] fw1].
  destruct (per_minute tb (order_window m)) as [[opm ow1]|e]; simpl; [|exact I].
  destruct (failure_rate_pct tc fw1) as [[rate fw2]|e]; simpl; [|exact I].
  split; [reflexivity|split; reflexivity].
Qed.

(** ** The duplicate filter's memory *)

Module DuplicateFilterSize.

(** A map that is the map of a deque with one entry per key has as many
    entries as the deque. *)
Lemma wf_size order : forall (seen : gmap string Q),
  (forall i t, seen !! i = Some t <-> In (t, i) order) -> NoDup (map snd order) ->
  size seen = length order.
Proof.
  induction order as [|[t i0] rest IH]; intros seen Hseen Hnd; simpl.
  - assert (Hemp : seen = ∅).
    { apply map_empty. intros i. destruct (seen !! i) as [t|] eqn:E; [|reflexivity].
      apply Hseen in E. destruct E. }
    rewrite Hemp. apply map_size_empty.
  - simpl in Hnd. apply NoDup_cons in Hnd as [Hni Hnd].
    assert (Hdel : forall i t', delete i0 seen !! i = Some t' <-> In (t', i) rest).
    { intros i t'. destruct (decide (i = i0)) as [->|Hne].
      - rewrite lookup_delete_eq. split; [discriminate|].
        intros Hin. exfalso. apply Hni. apply (in_map snd) in Hin. apply list_elem_of_In. exact Hin.
      - rewrite lookup_delete_ne by congruence. rewrite Hseen. simpl.
        split; [intros [Heq|Hin]; [congruence|exact Hin]|auto]. }
    assert (Hi0 : seen !! i0 = Some t) by (apply Hseen; left; reflexivity).
    rewrite <- (insert_delete_id seen i0 t Hi0).
    rewrite map_size_insert_None by apply lookup_delete_eq.
    rewrite (IH _ Hdel Hnd). reflexivity.
Qed.

Lemma df_run_wf calls : forall df, df_wf df -> df_wf (snd (df_run calls df)).
Proof.
  induction calls as [|[now i] rest IH]; intros df Hwf; simpl; [exact Hwf|].
  pose proof (DuplicateDelivery.register_wf now i df Hwf) as Hwf'.
  destruct (register now i df) as [b df']. simpl in Hwf'.
  specialize (IH df' Hwf'). destruct (df_run rest df') as [bs df'']. exact IH.
Qed.

End DuplicateFilterSize.

(** Whatever the clock does, a [DuplicateFilter] after any [register]
    calls keeps [_seen] as the map of [_order]: an identity is in [_seen]
    with time [t] exactly when [(t, identity)] is in [_order], no identity
    is twice in [_order], and so both hold the same number of entries;
    every identity popped by the eviction is dropped from [_seen]. *)
Theorem duplicate_filter_consistent (ttl_seconds : Q) (calls : list (Q * string)) :
  let df := snd (df_run calls (new_DuplicateFilter ttl_seconds)) in
  (forall i t, df_seen df !! i = Some t <-> In (t, i) (df_order df)) /\
  NoDup (map snd (df_order df)) /\
  size (df_seen df) = length (df_order df).
Proof.
  cbv zeta.
  pose proof (DuplicateFilterSize.df_run_wf calls _ (DuplicateDelivery.df_wf_new ttl_seconds))
    as [Hseen Hnd].
  split; [exact Hseen|]. split; [exact Hnd|].
  apply DuplicateFilterSize.wf_size; assumption.
Qed.

(** ** Event identities across topics and keys *)

Module EventIdFacts.

Lemma event_id_prefix {L : PyLib} topic key payload event_id :
  _event_id topic key payload = Ok event_id -> exists rest, event_id = topic +:+ ":" +:+ rest.
Proof.
  destruct payload as [| | | | |fields]; simpl; try discriminate.
  intros H. injection H as <-. eexists. reflexivity.
Qed.

(** The topic is the part of an identity before its first [':'] when the
    topic has none. *)
Lemma colon_prefix_unique t1 t2 r1 r2 :
  has_colon t1 = false -> has_colon t2 = false ->
  t1 +:+ ":" +:+ r1 = t2 +:+ ":" +:+ r2 -> t1 = t2.
Proof.
  revert t2. induction t1 as [|c1 t1 IH]; intros [|c2 t2] H1 H2 Heq; simpl in *.
  - reflexivity.
  - injection Heq as Hc _. subst c2. discriminate.
  - injection Heq as Hc _. subst c1. discriminate.
  - injection Heq as -> Heq.
    apply orb_false_iff in H1 as [_ H1]. apply orb_false_iff in H2 as [_ H2].
    rewrite (IH t2 H1 H2 Heq). reflexivity.
Qed.

End EventIdFacts.

(** Deliveries on two different topics never get the same identity when
    neither topic name contains [':'] (Kafka topic names cannot), whatever
    their keys and payloads: an order event and an inventory event are
    never taken for duplicates of each other. *)
Theorem event_ids_separate_topics {L : PyLib} (t1 t2 : string) (k1 k2 : option (list Byte.byte))
    (p1 p2 : json) (id1 id2 : string)
    (H1 : has_colon t1 = false) (H2 : has_colon t2 = false) (Hne : t1 <> t2)
    (Hid1 : _event_id t1 k1 p1 = Ok id1) (Hid2 : _event_id t2 k2 p2 = Ok id2) :
  id1 <> id2.
Proof.
  intros Heq.
  destruct (EventIdFacts.event_id_prefix _ _ _ _ Hid1) as [r1 ->].
  destruct (EventIdFacts.event_id_prefix _ _ _ _ Hid2) as [r2 ->].
  exact (Hne (EventIdFacts.colon_prefix_unique t1 t2 r1 r2 H1 H2 Heq)).
Qed.

Lemma event_ids_separate_topics_witness :
  @_event_id sample_runtime "orders" (Some [Byte.x31]) (JObj []) = Ok "orders:1:digest" /\
  @_event_id sample_runtime "inventory" (Some [Byte.x31]) (JObj []) = Ok "inventory:1:digest" /\
  "orders:1:digest" <> "inventory:1:digest".
Proof.
  assert (H1 : @_event_id sample_runtime "orders" (Some [Byte.x31]) (JObj []) = Ok "orders:1:digest")
    by reflexivity.
  assert (H2 : @_event_id sample_runtime "inventory" (Some [Byte.x31]) (JObj []) =
               Ok "inventory:1:digest") by reflexivity.
  split; [exact H1|]. split; [exact H2|].
  exact (@event_ids_separate_topics sample_runtime "orders" "inventory" _ _ _ _ _ _
           eq_refl eq_refl ltac:(discriminate) H1 H2).
Defined.

(** When the payload carries a non-null ["order_id"], the identity does
    not depend on the message key: the same payload delivered again under
    another key (within the filter's ttl of the first recording) is only
    counted as a duplicate. *)
Theorem event_id_ignores_key {L : PyLib} (env : Env) (topic : string)
    (k1 k2 value : option (list Byte.byte)) (fields : list (string * json)) (v : json)
    (Hdec : _decode_payload value = Some (JObj fields))
    (Hv : py_dict_get "order_id" fields = Some v) (Hnn : v <> JNull) :
  _event_id topic k1 (JObj fields) = _event_id topic k2 (JObj fields) /\
  forall ws ws1 event_id t1 t1' t2 t2',
    df_wf (deduper ws) ->
    _event_id topic k1 (JObj fields) = Ok event_id ->
    df_seen (df_evict t1 (deduper ws)) !! event_id = None ->
    t2 - df_ttl (deduper ws) <= t1 ->
    _handle_message env t1 t1' topic k1 value ws = Ok ws1 ->
    _handle_message env t2 t2' topic k2 value ws1 =
      Ok {| metrics := record_duplicate (metrics ws1); deduper := df_evict t2 (deduper ws1);
            commits := commits ws1 |}.
Proof.
  assert (Hsame : _event_id topic k1 (JObj fields) = _event_id topic k2 (JObj fields)).
  { unfold _event_id. rewrite Hv. destruct v; try reflexivity. contradiction. }
  split; [exact Hsame|].
  intros ws ws1 event_id t1 t1' t2 t2' Hwf Hid Hnew Ht2 Hh1.
  destruct (FirstDelivery.handle_first env t1 t1' topic k1 value fields event_id ws Hdec Hid Hnew)
    as (ws1' & Hh1' & Hdd & _).
  rewrite Hh1 in Hh1'. injection Hh1' as <-.
  rewrite Hsame in Hid.
  apply (DuplicateDelivery.handle_duplicate env t2 t2' topic k2 value fields event_id ws1 t1 Hdec Hid).
  - rewrite Hdd. apply DuplicateDelivery.register_wf, Hwf.
  - rewrite Hdd, (DuplicateDelivery.register_records t1 event_id (deduper ws) Hnew).
    simpl. apply lookup_insert_eq.
  - rewrite Hdd, DuplicateFilterFacts.register_ttl. exact Ht2.
Qed.

Lemma event_id_ignores_key_witness :
  @_decode_payload ids_runtime (Some (String.list_byte_of_string seven_order_payload)) =
    Some (JObj [("order_id", JNum "7")]) /\
  @_event_id ids_runtime "orders" (Some [Byte.x31]) (JObj [("order_id", JNum "7")]) =
    @_event_id ids_runtime "orders" (Some [Byte.x32]) (JObj [("order_id", JNum "7")]).
Proof.
  assert (Hdec : @_decode_payload ids_runtime (Some (String.list_byte_of_string seven_order_payload)) =
                 Some (JObj [("order_id", JNum "7")])) by (vm_compute; reflexivity).
  split; [exact Hdec|].
  exact (proj1 (@event_id_ignores_key ids_runtime sample_env "orders" (Some [Byte.x31]) (Some [Byte.x32])
                  _ _ (JNum "7") Hdec eq_refl ltac:(discriminate))).
Defined.

(** An order payload whose ["order_id"] is [null] is tracked in the order
    window under the id ["None"] (that is [str(None)]), whatever its key,
    while its identity uses the key: distinct such orders are not
    duplicates of each other, yet all count as the single live order
    ["None"]. *)
Theorem null_order_id_tracked_as_None {L : PyLib} (env : Env) (t_reg t_rec : Q)
    (key value : option (list Byte.byte)) (fields : list (string * json)) (event_id : string)
    (ws : WorkerState)
    (Hdec : _decode_payload value = Some (JObj fields))
    (Hnull : py_dict_get "order_id" fields = Some JNull)
    (Hid : _event_id (ORDER_TOPIC env) key (JObj fields) = Ok event_id)
    (Hnew : df_seen (df_evict t_reg (deduper ws)) !! event_id = None) :
  (exists ws', _handle_message env t_reg t_rec (ORDER_TOPIC env) key value ws = Ok ws' /\
     order_window (metrics ws') = uw_track (Some "None") t_rec (order_window (metrics ws))) /\
  (forall k, key = Some k ->
     event_id = ORDER_TOPIC env +:+ ":" +:+
                (if String.eqb (utf8_decode_ignore k) "" then "na" else utf8_decode_ignore k) +:+
                ":" +:+ sha1_of_dumps (JObj fields)).
Proof.
  split.
  - destruct (FirstDelivery.handle_first env t_reg t_rec _ key value fields event_id ws Hdec Hid Hnew)
      as (ws' & Hh & _ & Hm).
    rewrite String.eqb_refl in Hm.
    exists ws'. split; [exact Hh|]. rewrite Hm. simpl.
    unfold _resolve_order_id. rewrite Hnull. reflexivity.
  - intros k ->. unfold _event_id in Hid. rewrite Hnull in Hid.
    injection Hid as <-. simpl.
    destruct (String.eqb (utf8_decode_ignore k) ""); reflexivity.
Qed.

Lemma null_order_id_tracked_as_None_witness :
  exists ws', @_handle_message ids_runtime sample_env 0 0 "orders" (Some [Byte.x31])
                (Some (String.list_byte_of_string null_order_payload)) fresh_worker = Ok ws' /\
              order_window (metrics ws') =
                uw_track (Some "None") 0 (order_window (metrics fresh_worker)).
Proof.
  assert (Hdec : @_decode_payload ids_runtime (Some (String.list_byte_of_string null_order_payload)) =
                 Some (JObj [("order_id", JNull)])) by (vm_compute; reflexivity).
  assert (Hid : @_event_id ids_runtime "orders" (Some [Byte.x31]) (JObj [("order_id", JNull)]) =
                Ok "orders:1:digest1") by reflexivity.
  assert (Hnew : df_seen (df_evict 0 (deduper fresh_worker)) !! "orders:1:digest1" = None)
    by (vm_compute; reflexivity).
  exact (proj1 (@null_order_id_tracked_as_None ids_runtime sample_env 0 0 _ _ _ _ fresh_worker
                  Hdec eq_refl Hid Hnew)).
Defined.

(** ** Deliveries on other topics *)

(** A first delivery on a topic that is neither [ORDER_TOPIC] nor
    [INVENTORY_TOPIC] changes no metric but is registered in the duplicate
    filter: a redelivery of it within the ttl increments [duplicates]. *)
Theorem unexpected_topic_registered_only {L : PyLib} (env : Env) (topic : string)
    (key value : option (list Byte.byte)) (fields : list (string * json)) (event_id : string)
    (ws : WorkerState) (t1 t1' t2 t2' : Q)
    (Hord : topic <> ORDER_TOPIC env) (Hinv : topic <> INVENTORY_TOPIC env)
    (Hdec : _decode_payload value = Some (JObj fields))
    (Hid : _event_id topic key (JObj fields) = Ok event_id)
    (Hwf : df_wf (deduper ws))
    (Hnew : df_seen (df_evict t1 (deduper ws)) !! event_id = None)
    (Ht2 : t2 - df_ttl (deduper ws) <= t1) :
  exists ws1, _handle_message env t1 t1' topic key value ws = Ok ws1 /\
    metrics ws1 = metrics ws /\
    deduper ws1 = snd (register t1 event_id (deduper ws)) /\
    _handle_message env t2 t2' topic key value ws1 =
      Ok {| metrics := record_duplicate (metrics ws); deduper := df_evict t2 (deduper ws1);
            commits := commits ws1 |}.
Proof.
  destruct (FirstDelivery.handle_first env t1 t1' topic key value fields event_id ws Hdec Hid Hnew)
    as (ws1 & Hh1 & Hdd & Hm).
  apply String.eqb_neq in Hord, Hinv. rewrite Hord, Hinv in Hm.
  exists ws1. split; [exact Hh1|]. split; [exact Hm|]. split; [exact Hdd|].
  rewrite <- Hm.
  apply (DuplicateDelivery.handle_duplicate env t2 t2' topic key value fields event_id ws1 t1 Hdec Hid).
  - rewrite Hdd. apply DuplicateDelivery.register_wf, Hwf.
  - rewrite Hdd, (DuplicateDelivery.register_records t1 event_id (deduper ws) Hnew).
    simpl. apply lookup_insert_eq.
  - rewrite Hdd, DuplicateFilterFacts.register_ttl. exact Ht2.
Qed.

Lemma unexpected_topic_registered_only_witness :
  exists ws1, @_handle_message sample_runtime sample_env 0 0 "audit" None None fresh_worker = Ok ws1 /\
    metrics ws1 = metrics fresh_worker /\
    stat_duplicates (metrics (fst (match @_handle_message sample_runtime sample_env 10 10 "audit" None None ws1
                                   with Ok w => (w, tt) | Raise _ => (ws1, tt) end))) = 1%Z.
Proof.
  assert (Hnew : df_seen (df_evict 0 (deduper fresh_worker)) !! "audit:na:digest" = None)
    by (vm_compute; reflexivity).
  assert (Ht2 : 10 - df_ttl (deduper fresh_worker) <= 0) by (vm_compute; discriminate).
  destruct (@unexpected_topic_registered_only sample_runtime sample_env "audit" None None []
              "audit:na:digest" fresh_worker 0 0 10 10 ltac:(discriminate) ltac:(discriminate)
              eq_refl eq_refl (DuplicateDelivery.df_wf_new 60) Hnew Ht2)
    as (ws1 & Hh & Hm & _ & Hh2).
  exists ws1. split; [exact Hh|]. split; [exact Hm|].
  rewrite Hh2. simpl. reflexivity.
Defined.

(** ** Inventory events without a status *)

(** A first delivery on the inventory topic whose payload has no
    ["status"] field (a message with no value, decoded as [{}], included)
    is recorded as an inventory event that is not a failure. *)
Theorem inventory_missing_status_not_failure {L : PyLib} (env : Env) (t_reg t_rec : Q)
    (key value : option (list Byte.byte)) (fields : list (string * json)) (event_id : string)
    (ws : WorkerState)
    (Hlower : py_lower "" = "")
    (Htopics : INVENTORY_TOPIC env <> ORDER_TOPIC env)
    (Hdec : _decode_payload value = Some (JObj fields))
    (Hstatus : py_dict_get "status" fields = None)
    (Hid : _event_id (INVENTORY_TOPIC env) key (JObj fields) = Ok event_id)
    (Hnew : df_seen (df_evict t_reg (deduper ws)) !! event_id = None) :
  exists ws', _handle_message env t_reg t_rec (INVENTORY_TOPIC env) key value ws = Ok ws' /\
    metrics ws' = record_inventory false t_rec (metrics ws).
Proof.
  destruct (FirstDelivery.handle_first env t_reg t_rec _ key value fields event_id ws Hdec Hid Hnew)
    as (ws' & Hh & _ & Hm).
  apply String.eqb_neq in Htopics. rewrite Htopics, String.eqb_refl, Hstatus in Hm.
  simpl in Hm. rewrite Hlower in Hm.
  exists ws'. split; [exact Hh|]. exact Hm.
Qed.

Lemma inventory_missing_status_not_failure_witness :
  exists ws', @_handle_message sample_runtime sample_env 0 0 "inventory" (Some [Byte.x31]) None
                fresh_worker = Ok ws' /\
              metrics ws' = record_inventory false 0 (metrics fresh_worker).
Proof.
  assert (Hnew : df_seen (df_evict 0 (deduper fresh_worker)) !! "inventory:1:digest" = None)
    by (vm_compute; reflexivity).
  exact (@inventory_missing_status_not_failure sample_runtime sample_env 0 0 (Some [Byte.x31]) None []
           "inventory:1:digest" fresh_worker eq_refl ltac:(discriminate) eq_refl eq_refl eq_refl Hnew).
Defined.

(** ** Start-up: [_load_env], [main] and [_build_consumer] *)

Module StartupFacts.

Lemma filter_nil_iff {A} (f : A -> bool) (l : list A) :
  List.filter f l = [] <-> forall x, In x l -> f x = false.
Proof.
  induction l as [|a l IH]; simpl.
  - split; [intros _ x []|reflexivity].
  - destruct (f a) eqn:Ha; split.
    + discriminate.
    + intros Hall. rewrite (Hall a (or_introl eq_refl)) in Ha. discriminate.
    + intros Hf x [<-|Hx]; [exact Ha|]. apply IH; assumption.
    + intros Hall. apply IH. intros x Hx. apply Hall. right. exact Hx.
Qed.

Lemma missing_flag_true (os : OsEnv) (k : string) :
  match os !! k with Some v => String.eqb v "" | None => true end = true <->
  os !! k = None \/ os !! k = Some "".
Proof.
  destruct (os !! k) as [v|]; split.
  - intros Hv. apply String.eqb_eq in Hv. subst v. right. reflexivity.
  - intros [H|H]; [discriminate|]. injection H as ->. reflexivity.
  - intros _. left. reflexivity.
  - reflexivity.
Qed.

Lemma env_missing_nil (os : OsEnv) :
  env_missing os = [] ->
  forall k, In k required_keys -> exists v, os !! k = Some v /\ v <> "".
Proof.
  unfold env_missing. rewrite filter_nil_iff. intros Hall k Hk.
  specialize (Hall k Hk). destruct (os !! k) as [v|]; [|discriminate].
  exists v. split; [reflexivity|]. apply String.eqb_neq. exact Hall.
Qed.

Lemma load_env_inr `{PyStartup} (os : OsEnv) (s : Config.Settings) :
  _load_env os = inr s ->
  env_missing os = [] /\
  Config.BOOTSTRAP_SERVERS s = getenv_or os "BOOTSTRAP_SERVERS" "" /\
  Config.ORDER_TOPIC s = getenv_or os "ORDER_TOPIC" "" /\
  Config.INVENTORY_TOPIC s = getenv_or os "INVENTORY_TOPIC" "" /\
  Config.GROUP_ID s = getenv_or os "GROUP_ID" "" /\
  Config.AUTO_OFFSET_RESET s = getenv_or os "AUTO_OFFSET_RESET" "earliest" /\
  Config.GROUP_INSTANCE_ID s =
    (let g := py_strip (getenv_or os "GROUP_INSTANCE_ID" "") in
     if String.eqb g "" then None else Some g).
Proof.
  unfold _load_env. destruct (env_missing os) as [|k rest]; [|discriminate].
  destruct (py_float (getenv_or os "WINDOW_SEC" "60")); [|discriminate].
  destruct (py_int_of_str (getenv_or os "THROTTLE_MS" "0")); [|discriminate].
  destruct (py_int_of_str (getenv_or os "HTTP_PORT" "8080")); [|discriminate].
  destruct (py_float (getenv_or os "REPORT_INTERVAL_SEC" "0")); [|discriminate].
  intros Hs. injection Hs as <-. repeat split.
Qed.

End StartupFacts.

(** [_load_env] raises [RuntimeError] exactly when one of the four
    required variables ([BOOTSTRAP_SERVERS], [ORDER_TOPIC],
    [INVENTORY_TOPIC], [GROUP_ID]) is unset or empty; a malformed numeric
    variable can only make it raise [ValueError]. *)
Theorem load_env_missing_required `{PyStartup} (os : OsEnv) :
  (exists msg, _load_env os = inl (RuntimeError msg)) <->
  exists k, In k required_keys /\ (os !! k = None \/ os !! k = Some "").
Proof.
  unfold _load_env. destruct (env_missing os) as [|k rest] eqn:Hm.
  - split.
    + intros [msg Hmsg].
      destruct (py_float (getenv_or os "WINDOW_SEC" "60")),
               (py_int_of_str (getenv_or os "THROTTLE_MS" "0")),
               (py_int_of_str (getenv_or os "HTTP_PORT" "8080")),
               (py_float (getenv_or os "REPORT_INTERVAL_SEC" "0")); discriminate.
    + intros (k & Hk & Hnone).
      destruct (StartupFacts.env_missing_nil os Hm k Hk) as (v & Hv & Hne).
      rewrite Hv in Hnone. destruct Hnone as [Hn|Hn]; [discriminate|].
      injection Hn as Hn. contradiction.
  - split.
    + intros _. exists k.
      assert (Hin : In k (env_missing os)) by (rewrite Hm; left; reflexivity).
      unfold env_missing in Hin. apply filter_In in Hin as [Hk Hf].
      split; [exact Hk|]. apply StartupFacts.missing_flag_true. exact Hf.
    + intros _. eexists. reflexivity.
Qed.

(** When [_load_env] returns, each required variable is set to a
    non-empty value, and the settings hold these values unchanged. *)
Theorem load_env_required_values `{PyStartup} (os : OsEnv) (s : Config.Settings)
    (Hok : _load_env os = inr s) :
  Forall2 (fun k v => os !! k = Some v /\ v <> "") required_keys
    [Config.BOOTSTRAP_SERVERS s; Config.ORDER_TOPIC s; Config.INVENTORY_TOPIC s; Config.GROUP_ID s].
Proof.
  destruct (StartupFacts.load_env_inr os s Hok) as (Hm & Hb & Ho & Hi & Hg & _).
  pose proof (StartupFacts.env_missing_nil os Hm) as Hreq.
  assert (Hget : forall k, In k required_keys ->
                 os !! k = Some (getenv_or os k "") /\ getenv_or os k "" <> "").
  { intros k Hk. destruct (Hreq k Hk) as (v & Hv & Hne).
    unfold getenv_or. rewrite Hv. split; [reflexivity|exact Hne]. }
  rewrite Hb, Ho, Hi, Hg.
  repeat constructor; apply Hget; simpl; tauto.
Qed.

Lemma load_env_required_values_witness :
  exists s, @_load_env sample_startup sample_os = inr s /\
    Forall2 (fun k v => sample_os !! k = Some v /\ v <> "") required_keys
      [Config.BOOTSTRAP_SERVERS s; Config.ORDER_TOPIC s; Config.INVENTORY_TOPIC s; Config.GROUP_ID s].
Proof.
  destruct (@_load_env sample_startup sample_os) as [e|s] eqn:Hs.
  - vm_compute in Hs. discriminate.
  - exists s. split; [reflexivity|]. exact (@load_env_required_values sample_startup sample_os s Hs).
Defined.

(** With only the required variables set, [main] runs with the defaults
    of [_load_env]: 60-second windows for the orders, the failures, the
    snapshot and the duplicate filter, no throttle, an HTTP server on
    [0.0.0.0:8080], no periodic reporter, and a consumer that starts from
    the earliest offset with no static group membership. *)
Theorem load_env_defaults `{PyStartup} (os : OsEnv)
    (Hw : py_float "60" = Some 60) (Ht : py_int_of_str "0" = Some 0%Z)
    (Hp : py_int_of_str "8080" = Some 8080%Z) (Hr : py_float "0" = Some 0)
    (Hs : py_strip "" = "")
    (Hreq : env_missing os = [])
    (Hunset : forall k, In k optional_keys -> os !! k = None) :
  exists s, _load_env os = inr s /\
    let st := main_setup s in
    uw_window (order_window (main_metrics st)) == 60 /\
    fw_window (failure_window (main_metrics st)) == 60 /\
    window_seconds (main_metrics st) = 60%Z /\
    df_ttl (worker_deduper (main_worker st)) == 60 /\
    worker_throttle (main_worker st) == 0 /\
    main_http st = ("0.0.0.0", 8080%Z) /\
    main_reporter st = None /\
    conf_get "auto.offset.reset" (consumer_conf (_build_consumer (main_worker st))) =
      Some (CStr "earliest") /\
    conf_get "group.instance.id" (consumer_conf (_build_consumer (main_worker st))) = None.
Proof.
  assert (Hget : forall k d, In k optional_keys -> getenv_or os k d = d).
  { intros k d Hk. unfold getenv_or. rewrite (Hunset k Hk). reflexivity. }
  unfold _load_env. rewrite Hreq.
  rewrite (Hget "AUTO_OFFSET_RESET"), (Hget "WINDOW_SEC"), (Hget "THROTTLE_MS"), (Hget "HTTP_HOST"),
    (Hget "HTTP_PORT"), (Hget "REPORT_INTERVAL_SEC"), (Hget "GROUP_INSTANCE_ID");
    try (unfold optional_keys; simpl; tauto).
  rewrite Hw, Ht, Hp, Hr, Hs.
  eexists. split; [reflexivity|].
  vm_compute. repeat split; reflexivity.
Qed.

Lemma load_env_defaults_witness :
  exists s, @_load_env sample_startup sample_os = inr s /\
    main_http (main_setup s) = ("0.0.0.0", 8080%Z) /\ main_reporter (main_setup s) = None.
Proof.
  assert (Hunset : forall k, In k optional_keys -> sample_os !! k = None).
  { intros k Hk. unfold optional_keys in Hk. simpl in Hk.
    repeat (destruct Hk as [<-|Hk]; [vm_compute; reflexivity|]). destruct Hk. }
  destruct (@load_env_defaults sample_startup sample_os eq_refl eq_refl eq_refl eq_refl eq_refl
              ltac:(vm_compute; reflexivity) Hunset)
    as (s & Hs & _ & _ & _ & _ & _ & Hh & Hr & _).
  exists s. split; [exact Hs|]. split; [exact Hh|exact Hr].
Defined.

(** The consumer the worker builds from loaded settings never commits
    offsets automatically, connects with the environment's servers and
    group, subscribes to exactly the two topics of the environment, and
    joins with a static [group.instance.id] exactly when
    [GROUP_INSTANCE_ID] is non-blank after stripping, with the stripped
    value. *)
Theorem consumer_from_env `{PyStartup} (os : OsEnv) (s : Config.Settings)
    (Hok : _load_env os = inr s) :
  let c := _build_consumer (main_worker (main_setup s)) in
  conf_get "enable.auto.commit" (consumer_conf c) = Some (CBool false) /\
  conf_get "bootstrap.servers" (consumer_conf c) = option_map CStr (os !! "BOOTSTRAP_SERVERS") /\
  conf_get "group.id" (consumer_conf c) = option_map CStr (os !! "GROUP_ID") /\
  map Some (subscription c) = [os !! "ORDER_TOPIC"; os !! "INVENTORY_TOPIC"] /\
  conf_get "group.instance.id" (consumer_conf c) =
    (let g := py_strip (getenv_or os "GROUP_INSTANCE_ID" "") in
     if String.eqb g "" then None else Some (CStr g)).
Proof.
  pose proof (load_env_required_values os s Hok) as Hreq.
  inversion Hreq as [|k1 v1 l1 l1' [Hb _] Hreq1]; subst.
  inversion Hreq1 as [|k2 v2 l2 l2' [Ho _] Hreq2]; subst.
  inversion Hreq2 as [|k3 v3 l3 l3' [Hi _] Hreq3]; subst.
  inversion Hreq3 as [|k4 v4 l4 l4' [Hg _] _]; subst.
  destruct (StartupFacts.load_env_inr os s Hok) as (_ & _ & _ & _ & _ & _ & Hgi).
  cbv zeta. rewrite Hb, Ho, Hi, Hg. unfold _build_consumer. simpl. rewrite Hgi. cbv zeta.
  destruct (String.eqb (py_strip (getenv_or os "GROUP_INSTANCE_ID" "")) "") eqn:He.
  - repeat split.
  - rewrite He. repeat split.
Qed.

Lemma consumer_from_env_witness :
  exists s, @_load_env sample_startup sample_os = inr s /\
    subscription (_build_consumer (main_worker (main_setup s))) = ["orders"; "inventory"] /\
    conf_get "enable.auto.commit" (consumer_conf (_build_consumer (main_worker (main_setup s)))) =
      Some (CBool false).
Proof.
  destruct (@_load_env sample_startup sample_os) as [e|s] eqn:Hs.
  - vm_compute in Hs. discriminate.
  - exists s. split; [reflexivity|].
    destruct (@consumer_from_env sample_startup sample_os s Hs) as (Hc & _).
    split; [|exact Hc].
    pose proof Hs as Hs'. vm_compute in Hs'. injection Hs' as <-. vm_compute. reflexivity.
Defined.
